(** * FinanceHub Pro ([app.py]): rating, alert parsing, record store

    A shallow embedding of the locally computed parts of [app.py] and the
    properties its specification states about them.  The external
    collaborators (the generative model, the news service, the sentiment
    library, the clock) appear as explicit inputs; the interpreter's
    built-ins the code relies on ([str.strip], [str.split], [int], [round],
    true division) are modelled in the modules [PyStr] and [PyNum]. *)

From Stdlib Require Import ZArith NArith QArith List String Ascii Lia.
From Stdlib Require Import DecimalString.
From stdpp Require Import base strings gmap list.

Import ListNotations.
Local Open Scope Z_scope.

(** ** Exceptions and results *)

(** The exception classes the code can meet, all of them subclasses of
    [Exception]: interrupts and interpreter exit are outside this model.
    [HTTPError] is what [raise_for_status] raises; the messages of the
    exceptions raised by built-ins are abbreviated. *)
Inductive exn_class :=
  | Timeout | HTTPError | RequestException | ValueError | OverflowError
  | ZeroDivisionError | AttributeError | TypeError | KeyError
  | OtherException.

(** [except requests.exceptions.Timeout] *)
Definition is_Timeout (c : exn_class) : bool :=
  match c with Timeout => true | _ => false end.

(** [except requests.exceptions.RequestException]: the class and its
    subclasses. *)
Definition is_RequestException (c : exn_class) : bool :=
  match c with Timeout | HTTPError | RequestException => true | _ => false end.

(** [except Exception] and a bare [except]. *)
Definition is_Exception (c : exn_class) : bool := true.

Inductive result (A : Type) :=
  | Ok (a : A)
  | Raise (c : exn_class) (msg : list N).
Arguments Ok {A} a.
Arguments Raise {A} c msg.

Definition bind {A B} (r : result A) (k : A -> result B) : result B :=
  match r with
  | Ok a => k a
  | Raise c m => Raise c m
  end.

(** [try: body except C1: h1 except C2: h2 ...]: the first clause whose
    class covers the exception handles it. *)
Definition try_except {A} (body : result A)
    (clauses : list ((exn_class -> bool) * (exn_class -> list N -> result A)))
    : result A :=
  match body with
  | Ok a => Ok a
  | Raise c m =>
      match List.find (fun cl => fst cl c) clauses with
      | Some cl => snd cl c m
      | None => Raise c m
      end
  end.

Notation "'let*' x ':=' r 'in' k" := (bind r (fun x => k))
  (at level 10, x name, r at level 100, k at level 200).

(** ** Python strings *)

Module PyStr.

(** A [str] is a sequence of Unicode code points. *)
Definition char := N.
Definition str := list char.

(** Source literals are written as Rocq strings (UTF-8 bytes) and decoded
    to code points. *)
Fixpoint utf8_decode (bs : list N) : str :=
  match bs with
  | [] => []
  | b0 :: r0 =>
      if (b0 <? 128)%N then b0 :: utf8_decode r0
      else if (b0 <? 224)%N then
        match r0 with
        | b1 :: r1 => ((b0 - 192) * 64 + (b1 - 128))%N :: utf8_decode r1
        | _ => []
        end
      else if (b0 <? 240)%N then
        match r0 with
        | b1 :: b2 :: r2 =>
            ((b0 - 224) * 4096 + (b1 - 128) * 64 + (b2 - 128))%N
              :: utf8_decode r2
        | _ => []
        end
      else
        match r0 with
        | b1 :: b2 :: b3 :: r3 =>
            ((b0 - 240) * 262144 + (b1 - 128) * 4096
             + (b2 - 128) * 64 + (b3 - 128))%N :: utf8_decode r3
        | _ => []
        end
  end.

Definition lit (s : string) : str :=
  utf8_decode (List.map N_of_ascii (list_ascii_of_string s)).

Definition space : char := 32%N.
Definition hyphen : char := 45%N.
Definition asterisk : char := 42%N.
Definition em_dash : char := 8212%N.
Definition newline : char := 10%N.

(** [str.isspace] on one code point (the interpreter's whitespace set). *)
Definition isspace (c : char) : bool :=
  ((9 <=? c) && (c <=? 13) || (28 <=? c) && (c <=? 32)
   || (c =? 133) || (c =? 160) || (c =? 5760)
   || (8192 <=? c) && (c <=? 8202)
   || (c =? 8232) || (c =? 8233) || (c =? 8239) || (c =? 8287)
   || (c =? 12288))%N.

Definition mem (c : char) (cs : str) : bool :=
  existsb (N.eqb c) cs.

Fixpoint lstrip_by (f : char -> bool) (s : str) : str :=
  match s with
  | [] => []
  | c :: r => if f c then lstrip_by f r else s
  end.

Definition rstrip_by (f : char -> bool) (s : str) : str :=
  rev (lstrip_by f (rev s)).

Definition strip_by (f : char -> bool) (s : str) : str :=
  rstrip_by f (lstrip_by f s).

(** [s.strip()] *)
Definition strip (s : str) : str := strip_by isspace s.

(** [s.strip(chars)] *)
Definition strip_chars (chars : str) (s : str) : str :=
  strip_by (fun c => mem c chars) s.

(** [s.split(sep)] for a separator of one code point. *)
Fixpoint split (sep : char) (s : str) : list str :=
  match s with
  | [] => [[]]
  | c :: r =>
      if (c =? sep)%N then [] :: split sep r
      else match split sep r with
           | seg :: segs => (c :: seg) :: segs
           | [] => [[c]]
           end
  end.

(** [s == t] *)
Fixpoint eqb (s t : str) : bool :=
  match s, t with
  | [], [] => true
  | c :: s', d :: t' => (c =? d)%N && eqb s' t'
  | _, _ => false
  end.

Fixpoint startswith (s p : str) : bool :=
  match p, s with
  | [], _ => true
  | d :: p', c :: s' => (c =? d)%N && startswith s' p'
  | _ :: _, [] => false
  end.

(** [sub in s] *)
Fixpoint contains (s sub : str) : bool :=
  startswith s sub
  || match s with
     | [] => false
     | _ :: r => contains r sub
     end.

(** [sep.join(items)] *)
Fixpoint join (sep : str) (items : list str) : str :=
  match items with
  | [] => []
  | [x] => x
  | x :: rest => x ++ sep ++ join sep rest
  end.

(** [d.get(key)] on the items of a dictionary, in insertion order. *)
Fixpoint lookup {V} (key : str) (items : list (str * V)) : option V :=
  match items with
  | [] => None
  | (k, v) :: rest => if eqb key k then Some v else lookup key rest
  end.

(** Truthiness of a string: non-empty. *)
Definition truthy (s : str) : bool :=
  match s with [] => false | _ => true end.

(** [Py_UNICODE_TODECIMAL]: the code points of the decimal digit zero of
    every script (Unicode 14); each is followed by its digits 1 to 9. *)
Definition decimal_zeros : list char :=
  [48; 1632; 1776; 1984; 2406; 2534; 2662; 2790; 2918; 3046; 3174; 3302;
   3430; 3558; 3664; 3792; 3872; 4160; 4240; 6112; 6160; 6470; 6608; 6784;
   6800; 6992; 7088; 7232; 7248; 42528; 43216; 43264; 43472; 43504; 43600;
   44016; 65296; 66720; 68912; 69734; 69872; 69942; 70096; 70384; 70736;
   70864; 71248; 71360; 71472; 71904; 72016; 72784; 73040; 73120; 92768;
   92864; 93008; 120782; 120792; 120802; 120812; 120822; 123200; 123632;
   125264; 130032]%N.

Definition decimal (c : char) : option Z :=
  match List.find (fun z => (z <=? c) && (c <? z + 10))%N decimal_zeros with
  | Some z => Some (Z.of_N (c - z))
  | None => None
  end.

(** The whitespace [int] skips around the number: the C-locale space
    characters below 128, every Unicode space above. *)
Definition int_space (c : char) : bool :=
  if (c <? 128)%N then ((9 <=? c) && (c <=? 13) || (c =? 32))%N
  else isspace c.

Definition plus_sign : char := 43%N.
Definition underscore : char := 95%N.

(** Digits with single underscores between them: the value and the
    number of digits read. *)
Fixpoint digits_value (acc : Z) (n : nat) (after_digit : bool) (s : str)
  : option (Z * nat) :=
  match s with
  | [] => if after_digit then Some (acc, n) else None
  | c :: r =>
      if (c =? underscore)%N then
        if after_digit then digits_value acc n false r else None
      else
        match decimal c with
        | Some d => digits_value (10 * acc + d) (S n) true r
        | None => None
        end
  end.

(** [sys.get_int_max_str_digits()], the interpreter's default. *)
Definition int_max_str_digits : nat := 4300.

(** [int(s)]: base ten, optional sign, [ValueError] otherwise. *)
Definition int (s : str) : result Z :=
  let s1 := strip_by int_space s in
  let '(sign, body) :=
    match s1 with
    | c :: r => if (c =? plus_sign)%N then (1, r)
                else if (c =? hyphen)%N then (-1, r)
                else (1, s1)
    | [] => (1, s1)
    end in
  match digits_value 0 0 false body with
  | Some (v, n) =>
      if (int_max_str_digits <? n)%nat
      then Raise ValueError (lit "Exceeds the limit for integer string conversion")
      else Ok (sign * v)
  | None => Raise ValueError (lit "invalid literal for int() with base 10")
  end.

(** Decimal rendering of an integer, as [str(n)] and f-strings do. *)
Definition of_Z (z : Z) : str :=
  lit (NilZero.string_of_int (Z.to_int z)).

End PyStr.

Import PyStr.

(** ** Python numbers: floats, true division, [round] *)

Module PyNum.

(** A [float] is a binary64 value; a finite one is represented by the
    rational it denotes (the sign of zero is not observable here). *)
Inductive float :=
  | Finite (q : Q)
  | Inf (negative : bool)
  | NaN.

(** The integer nearest to [n/d], ties to the even one. *)
Definition round_half_even (n : Z) (d : positive) : Z :=
  let k := n / Z.pos d in
  let r := n mod Z.pos d in
  match 2 * r ?= Z.pos d with
  | Lt => k
  | Gt => k + 1
  | Eq => if Z.even k then k else k + 1
  end.

(** The binary64 value nearest to [n/d] for [n > 0] (ties to even,
    gradual underflow); [None] when it exceeds the largest float. *)
Definition binary64_of_pos_ratio (n d : positive) : option Q :=
  let e0 := Z.log2 (Z.pos n) - Z.log2 (Z.pos d) in
  let e := if Z.pos d * 2 ^ Z.max e0 0 <=? Z.pos n * 2 ^ Z.max (- e0) 0
           then e0 else e0 - 1 in
  let q := Z.max (e - 52) (-1074) in
  let m := round_half_even (Z.pos n * 2 ^ Z.max (- q) 0)
                           (Z.to_pos (Z.pos d * 2 ^ Z.max q 0)) in
  if (q <=? 0) || (m * 2 ^ q <? 2 ^ 1024)
  then Some (Qmake (m * 2 ^ Z.max q 0) (Z.to_pos (2 ^ Z.max (- q) 0)))
  else None.

Definition binary64_of_ratio (n : Z) (d : positive) : option Q :=
  match n with
  | 0 => Some (Qmake 0 1)
  | Z.pos p => binary64_of_pos_ratio p d
  | Z.neg p => option_map Qopp (binary64_of_pos_ratio p d)
  end.

(** A decimal literal [n/d] of the source text, e.g. [0.6] as [6/10]. *)
Definition literal (n : Z) (d : positive) : float :=
  match binary64_of_ratio n d with
  | Some q => Finite q
  | None => Inf (n <? 0)
  end.

Definition neg (x : float) : float :=
  match x with
  | Finite q => Finite (Qopp q)
  | Inf s => Inf (negb s)
  | NaN => NaN
  end.

(** [x <= y] on floats. *)
Definition le (x y : float) : bool :=
  match x, y with
  | NaN, _ | _, NaN => false
  | Finite a, Finite b => Qle_bool a b
  | Inf true, _ => true
  | _, Inf false => true
  | _, _ => false
  end.

(** [x < y] on floats. *)
Definition lt (x y : float) : bool :=
  match x, y with
  | NaN, _ | _, NaN => false
  | Finite a, Finite b => negb (Qle_bool b a)
  | Inf true, Inf true => false
  | Inf true, _ => true
  | Finite _, Inf false => true
  | _, _ => false
  end.

(** Truthiness of a float: non-zero. *)
Definition truthy (x : float) : bool :=
  match x with
  | Finite q => negb (Qnum q =? 0)
  | _ => true
  end.

(** [a / b] on integers: the correctly rounded quotient. *)
Definition true_div (a b : Z) : result float :=
  match b with
  | 0 => Raise ZeroDivisionError (lit "division by zero")
  | _ =>
      match binary64_of_ratio (a * Z.sgn b) (Z.to_pos (Z.abs b)) with
      | Some q => Ok (Finite q)
      | None =>
          Raise OverflowError (lit "integer division result too large for a float")
      end
  end.

(** [round(x)] with one argument. *)
Definition round (x : float) : result Z :=
  match x with
  | Finite q => Ok (round_half_even (Qnum q) (Qden q))
  | Inf _ => Raise OverflowError (lit "cannot convert float infinity to integer")
  | NaN => Raise ValueError (lit "cannot convert float NaN to integer")
  end.

End PyNum.

(** ** JSON values, as [response.json()] returns them *)

Module Json.

#[warnings="-register-all"]
Inductive value :=
  | Null
  | Bool (b : bool)
  | Int (n : Z)
  | Float (x : PyNum.float)
  | Str (s : str)
  | List (l : list value)
  | Dict (items : list (str * value)).

Definition truthy (v : value) : bool :=
  match v with
  | Null => false
  | Bool b => b
  | Int n => negb (n =? 0)
  | Float x => PyNum.truthy x
  | Str s => PyStr.truthy s
  | List l => match l with [] => false | _ => true end
  | Dict d => match d with [] => false | _ => true end
  end.

(** [v == s] for a string literal [s]. *)
Definition eq_str (v : value) (s : str) : bool :=
  match v with
  | Str t => PyStr.eqb t s
  | _ => false
  end.

(** [v.get(key, default)]: only a dictionary has the method. *)
Definition get (v : value) (key : str) (default : value) : result value :=
  match v with
  | Dict d => Ok (match PyStr.lookup key d with
                  | Some x => x
                  | None => default
                  end)
  | _ => Raise AttributeError (lit "object has no attribute 'get'")
  end.

(** [v[key]] *)
Definition getitem (v : value) (key : str) : result value :=
  match v with
  | Dict d => match PyStr.lookup key d with
              | Some x => Ok x
              | None => Raise KeyError key
              end
  | Str _ | List _ => Raise TypeError (lit "indices must be integers")
  | _ => Raise TypeError (lit "object is not subscriptable")
  end.

(** The elements [for x in v] runs over. *)
Definition iter (v : value) : result (list value) :=
  match v with
  | List l => Ok l
  | Str s => Ok (List.map (fun c => Str [c]) s)
  | Dict d => Ok (List.map (fun kv => Str (fst kv)) d)
  | _ => Raise TypeError (lit "object is not iterable")
  end.

End Json.

(** ** The external collaborators *)

(** What [requests.get] returns: the status code, and the outcome of
    [response.json()]. *)
Record response := {
  status_code : Z;
  json_body : result Json.value
}.

Definition datetime := Z.

(** Everything one run of the script takes from outside the repository. *)
Record world := {
  (** [TextBlob(content).sentiment.polarity] *)
  sentiment_polarity : str -> PyNum.float;
  (** [model.generate_content(prompt).text]; a [Raise] is whatever the
      call or the access to [.text] raises. *)
  generate_content : str -> result str;
  (** [requests.get(url, timeout=10)] *)
  http_get : str -> result response;
  (** [os.getenv("NEWS_API_KEY")] *)
  NEWS_API_KEY : str;
  (** [datetime.now()] *)
  now : datetime;
  (** [str.lower], the interpreter's Unicode lower-casing *)
  str_lower : str -> str;
  (** how an f-string renders a value that is not a string *)
  str_of_value : Json.value -> str
}.

Definition nl : str := [newline].

(** ** Blog rating *)

(** The thresholds of [rate_with_textblob] as a function of the polarity. *)
Definition polarity_rating (polarity : PyNum.float) : Z :=
  if PyNum.le polarity (PyNum.neg (PyNum.literal 6 10)) then 1
  else if PyNum.le polarity (PyNum.neg (PyNum.literal 2 10)) then 2
  else if PyNum.le polarity (PyNum.literal 2 10) then 3
  else if PyNum.le polarity (PyNum.literal 6 10) then 4
  else 5.

Definition rate_with_textblob (w : world) (content : str) : Z :=
  let polarity := sentiment_polarity w content in
  polarity_rating polarity.

Definition rating_prompt (content : str) : str :=
  lit "You are an expert finance content reviewer." ++ nl
  ++ lit "Rate the following blog on a scale of 1 to 5 based on:" ++ nl
  ++ lit "- Relevance to finance topics" ++ nl
  ++ lit "- Depth, clarity, grammar, coherence" ++ nl ++ nl
  ++ lit "*Only return a single integer (1 to 5)*." ++ nl ++ nl
  ++ lit "Content:" ++ nl ++ content.

(** The result [None] is Python's [None]. *)
Definition rate_with_gemini (w : world) (content : str) : result (option Z) :=
  let prompt := rating_prompt content in
  try_except
    (let* text := generate_content w prompt in
     let* n := PyStr.int (strip text) in
     Ok (Some n))
    [(is_Exception, fun _ _ => Ok None)].

(** Truthiness of [gemini_rating]: neither [None] nor zero. *)
Definition rating_truthy (r : option Z) : bool :=
  match r with
  | Some n => negb (n =? 0)
  | None => false
  end.

Definition rate_blog (w : world) (content : str) : result Z :=
  let* gemini_rating := rate_with_gemini w content in
  let blob_rating := rate_with_textblob w content in
  match gemini_rating with
  | Some g =>
      if rating_truthy gemini_rating then
        let* quotient := PyNum.true_div (g * 4 + blob_rating) 5 in
        let* final := PyNum.round quotient in
        Ok (Z.max 1 (Z.min 5 final))
      else Ok blob_rating
  | None => Ok blob_rating
  end.

(** ** Market alerts *)

Definition news_url (w : world) : str :=
  lit "https://newsapi.org/v2/top-headlines?category=business&language=en&pageSize=10&apiKey="
  ++ NEWS_API_KEY w.

(** [response.raise_for_status()] *)
Definition raise_for_status (r : response) : result unit :=
  if (400 <=? status_code r) && (status_code r <? 600)
  then Raise HTTPError (lit "Client or Server Error")
  else Ok tt.

Definition format_value (w : world) (v : Json.value) : str :=
  match v with
  | Json.Str s => s
  | _ => str_of_value w v
  end.

(** The list comprehension over the articles. *)
Fixpoint headlines (w : world) (articles : list Json.value) : result (list str) :=
  match articles with
  | [] => Ok []
  | article :: rest =>
      let* title := Json.get article (lit "title") Json.Null in
      let* keep :=
        (if Json.truthy title then
           let* description := Json.get article (lit "description") Json.Null in
           Ok (Json.truthy description)
         else Ok false) in
      if keep then
        let* t := Json.getitem article (lit "title") in
        let* d := Json.getitem article (lit "description") in
        let* more := headlines w rest in
        Ok ((format_value w t ++ lit ". " ++ format_value w d) :: more)
      else headlines w rest
  end.

(** [fetch_news]; the notices shown through [st.error] and the cache of
    [st.cache_data] are user-interface effects and are left out. *)
Definition fetch_news (w : world) : result (list str) :=
  let url := news_url w in
  try_except
    (let* response := http_get w url in
     let* _ := raise_for_status response in
     let* data := json_body response in
     let* status := Json.get data (lit "status") Json.Null in
     if Json.eq_str status (lit "error") then Ok []
     else
       let* articles := Json.get data (lit "articles") (Json.List []) in
       if negb (Json.truthy articles) then Ok []
       else
         let* items := Json.iter articles in
         headlines w items)
    [(is_Timeout, fun _ _ => Ok []);
     (is_RequestException, fun _ _ => Ok []);
     (is_Exception, fun _ _ => Ok [])].

Definition alerts_prompt (news_list : list str) : str :=
  let prompt := join nl (List.map (fun headline => lit "- " ++ headline) news_list) in
  nl ++ lit "You are an expert stock market analyst and financial writer." ++ nl
  ++ lit "Below are recent business news headlines." ++ nl
  ++ lit "Your task:" ++ nl
  ++ lit "1. Select only the headlines that are likely to move stock prices — up or down." ++ nl
  ++ lit "2. For each one, identify:" ++ nl
  ++ lit "   - The affected *company or sector*" ++ nl
  ++ lit "   - Whether the effect is *Positive, **Negative, or **Neutral*" ++ nl
  ++ lit "   - A detailed, beginner-friendly explanation of why this matters for investors and how it will impact the stocks. Use emojis where appropriate." ++ nl
  ++ lit "Format each item like this:" ++ nl
  ++ lit "- [Headline] — [Company/Sector] — [Impact Direction] — [Detailed Explanation]" ++ nl
  ++ nl
  ++ lit "Headlines:" ++ nl
  ++ prompt ++ nl.

Definition get_stock_alerts (w : world) (news_list : list str) : result (list str) :=
  match news_list with
  | [] => Ok []
  | _ =>
      let full_prompt := alerts_prompt news_list in
      try_except
        (let* text := generate_content w full_prompt in
         Ok (split newline (strip text)))
        [(is_Exception, fun _ _ => Ok [])]
  end.

Record AlertRecord := {
  headline : str;
  stock : str;
  impact : str;
  summary : str
}.

(** The characters of [" -*—"]. *)
Definition alert_strip_chars : str := lit " -*—".

(** The body of the loop of [parse_alerts] for one line: [None] when the
    line is skipped or has fewer than four segments.  The operations on a
    string raise nothing, so the [try] around the body never fires. *)
Definition parse_alert_line (line : str) : option AlertRecord :=
  if negb (truthy (strip line)) || negb (mem em_dash line) then None
  else
    let parts := List.map (strip_chars alert_strip_chars) (split em_dash line) in
    match parts with
    | p0 :: p1 :: p2 :: p3 :: _ =>
        Some {| headline := p0; stock := p1; impact := p2; summary := p3 |}
    | _ => None
    end.

Fixpoint parse_alerts (lines : list str) : list AlertRecord :=
  match lines with
  | [] => []
  | line :: rest =>
      match parse_alert_line line with
      | Some a => a :: parse_alerts rest
      | None => parse_alerts rest
      end
  end.

(** ** Document summarizer *)

Definition summary_prompt (content doc_type : str) : str :=
  nl ++ lit "You are an expert financial analyst specializing in document analysis." ++ nl
  ++ nl
  ++ lit "Document Type: " ++ doc_type ++ nl
  ++ nl
  ++ lit "Please provide a comprehensive summary of this financial document with the following structure:" ++ nl
  ++ nl
  ++ lit "1. **Executive Summary** (2-3 sentences)" ++ nl
  ++ lit "2. **Key Financial Metrics** (bullet points of important numbers, ratios, or figures)" ++ nl
  ++ lit "3. **Main Findings** (detailed insights and observations)" ++ nl
  ++ lit "4. **Risk Factors** (if any are mentioned)" ++ nl
  ++ lit "5. **Recommendations** (actionable insights for stakeholders)" ++ nl
  ++ nl
  ++ lit "Document Content:" ++ nl
  ++ content ++ nl
  ++ nl
  ++ lit "Provide a clear, professional summary suitable for executives and investors." ++ nl.

Definition summarize_document (w : world) (content doc_type : str) : result str :=
  let prompt := summary_prompt content doc_type in
  try_except
    (let* text := generate_content w prompt in
     Ok (strip text))
    [(is_Exception, fun _ e => Ok (lit "Error generating summary: " ++ e))].

(** ** Finance terms dictionary *)

Definition FINANCE_TERMS : list (str * str) :=
  [
    (lit "Balance Sheet",
     lit "बैलेंस शीट / Bilan / Balance general - A financial statement showing assets, liabilities, and equity");
    (lit "Net Profit",
     lit "शुद्ध लाभ / Bénéfice net / Utilidad neta - Revenue minus all expenses and taxes");
    (lit "Assets",
     lit "परिसंपत्तियाँ / Actifs / Activos - Resources owned by a business with economic value");
    (lit "Liabilities",
     lit "देनदारियाँ / Passifs / Pasivos - Financial obligations or debts owed");
    (lit "Revenue",
     lit "राजस्व / Chiffre d'affaires / Ingresos - Total income generated from business operations");
    (lit "Depreciation",
     lit "मूल्यह्रास / Amortissement / Depreciación - Decrease in asset value over time");
    (lit "Dividend",
     lit "लाभांश / Dividende / Dividendo - Payment made to shareholders from profits");
    (lit "Cash Flow",
     lit "नकदी प्रवाह / Flux de trésorerie / Flujo de efectivo - Movement of money in and out of business");
    (lit "ROI",
     lit "निवेश प्रतिफल / Retour sur investissement / Retorno de inversión - Return on Investment percentage");
    (lit "IPO",
     lit "प्रारंभिक सार्वजनिक निर्गम / Offre publique initiale / Oferta pública inicial - Initial Public Offering");
    (lit "Capital Gains",
     lit "पूंजी लाभ / Gains en capital / Ganancias de capital - Profit from selling an asset");
    (lit "Equity",
     lit "स्वामित्व पूंजी / Capital-actions / Capital accionario - Ownership value in a company");
    (lit "Debt",
     lit "ऋण / Dette / Deuda - Money owed to creditors");
    (lit "Portfolio",
     lit "निवेश पोर्टफोलियो / Portefeuille / Portafolio - Collection of investments");
    (lit "Mutual Fund",
     lit "म्यूचुअल फंड / Fonds commun / Fondo mutuo - Pooled investment vehicle");
    (lit "Bond",
     lit "बांड / Obligation / Bono - Fixed-income debt security");
    (lit "Stock",
     lit "शेयर / Action / Acción - Share of ownership in a company");
    (lit "Interest Rate",
     lit "ब्याज दर / Taux d'intérêt / Tasa de interés - Cost of borrowing money");
    (lit "Inflation",
     lit "मुद्रास्फीति / Inflation / Inflación - Rate of price increase over time");
    (lit "GDP",
     lit "सकल घरेलू उत्पाद / PIB / PIB - Gross Domestic Product");
    (lit "Market Cap",
     lit "बाजार पूंजीकरण / Capitalisation boursière / Capitalización bursátil - Total market value of shares");
    (lit "Bull Market",
     lit "तेजी बाजार / Marché haussier / Mercado alcista - Rising market trend");
    (lit "Bear Market",
     lit "मंदी बाजार / Marché baissier / Mercado bajista - Falling market trend");
    (lit "Hedge Fund",
     lit "हेज फंड / Fonds spéculatif / Fondo de cobertura - Alternative investment fund");
    (lit "Credit Rating",
     lit "ऋण रेटिंग / Notation de crédit / Calificación crediticia - Assessment of creditworthiness")
  ].

(** What the glossary panel shows for a search. *)
Inductive glossary_view :=
  | ExactMatch (term definition : str)
  | PartialMatches (found : nat) (shown : list (str * str)) (more : option nat)
  | TermNotFound.

(** [FINANCE_TERMS[term]] for a term that is one of its keys. *)
Definition term_definition (term : str) : str :=
  match lookup term FINANCE_TERMS with
  | Some d => d
  | None => []
  end.

(** The search logic of the home page; [None] when it does not run. *)
Definition glossary_search (w : world) (search_term : str) (search_button : bool)
  : option glossary_view :=
  if truthy search_term || search_button then
    let search_term_clean := strip search_term in
    match lookup search_term_clean FINANCE_TERMS with
    | Some d => Some (ExactMatch search_term_clean d)
    | None =>
        let matches :=
          List.filter
            (fun term => contains (str_lower w term) (str_lower w search_term_clean))
            (List.map fst FINANCE_TERMS) in
        match matches with
        | _ :: _ =>
            Some (PartialMatches
                    (length matches)
                    (List.map (fun m => (m, term_definition m)) (firstn 5 matches))
                    (if (5 <? length matches)%nat
                     then Some (length matches - 5)%nat else None))
        | [] => Some TermNotFound
        end
    end
  else None.

(** ** Records *)

Module Blog.
Record t := {
  id : Z;
  user_name : str;
  title : str;
  content : str;
  tag : str;
  time : datetime;
  likes : Z;
  comments : Z;
  rating : Z
}.
End Blog.

Module Summary.
Record t := {
  id : Z;
  title : str;
  type : str;
  content : str;
  summary : str;
  timestamp : datetime
}.
End Summary.

(** The options of the document-type select box. *)
Inductive doc_type :=
  | General | FinancialStatement | BalanceSheet | IncomeStatement
  | CashFlow | InvestmentReport | AuditReport | BusinessPlan.

Definition doc_type_label (t : doc_type) : str :=
  match t with
  | General => lit "General"
  | FinancialStatement => lit "Financial Statement"
  | BalanceSheet => lit "Balance Sheet"
  | IncomeStatement => lit "Income Statement"
  | CashFlow => lit "Cash Flow"
  | InvestmentReport => lit "Investment Report"
  | AuditReport => lit "Audit Report"
  | BusinessPlan => lit "Business Plan"
  end.

(** ** Local storage *)

(** [pickle] on the two kinds of record list: what [pickle.dump] writes
    and what [pickle.load] makes of the content of a file. *)
Record pickle := {
  file_data : Type;
  dump_blogs : list Blog.t -> file_data;
  load_blogs_data : file_data -> result (list Blog.t);
  dump_summaries : list Summary.t -> file_data;
  load_summaries_data : file_data -> result (list Summary.t)
}.

(** [STORAGE_DIR / "blogs.pkl"] and [STORAGE_DIR / "summaries.pkl"] *)
Definition blogs_path : string := "finance_app_data/blogs.pkl".
Definition summaries_path : string := "finance_app_data/summaries.pkl".

(** [st.session_state]: a key is [None] until the script sets it. *)
Record session_state := {
  blogs : option (list Blog.t);
  blog_counter : option Z;
  summaries : option (list Summary.t);
  summary_counter : option Z
}.

Definition fresh_session : session_state :=
  {| blogs := None; blog_counter := None;
     summaries := None; summary_counter := None |}.

(** What one run of the script reports to the user. *)
Inductive outcome :=
  | BlogMissingFields
  | BlogTooShort
  | BlogPublished (rating : Z)
  | SummaryNoContent
  | SummaryTooShort
  | SummaryGenerated (text : str)
  | NothingSubmitted.

(** The user action that triggers a run. *)
Inductive event :=
  | PublishBlog (user_name title content tag : str)
  | GenerateSummary (doc_title : str) (doc_type : doc_type) (doc_content : str)
  | Browse.

Section Store.

Context (pk : pickle).

Definition save_blogs (blogs : list Blog.t) (fs : gmap string (file_data pk))
  : gmap string (file_data pk) :=
  <[blogs_path := dump_blogs pk blogs]> fs.

Definition load_blogs (fs : gmap string (file_data pk)) : result (list Blog.t) :=
  match fs !! blogs_path with
  | Some d => load_blogs_data pk d
  | None => Ok []
  end.

Definition save_summaries (summaries : list Summary.t)
    (fs : gmap string (file_data pk)) : gmap string (file_data pk) :=
  <[summaries_path := dump_summaries pk summaries]> fs.

Definition load_summaries (fs : gmap string (file_data pk))
  : result (list Summary.t) :=
  match fs !! summaries_path with
  | Some d => load_summaries_data pk d
  | None => Ok []
  end.

(** The state a run of the script works on: the session and the disk. *)
Record app_state := {
  session : session_state;
  disk : gmap string (file_data pk)
}.

(** A run reads and updates the state and may raise; what it changed
    before raising stays changed. *)
Definition M (A : Type) : Type := app_state -> result A * app_state.

Definition ret {A} (a : A) : M A := fun st => (Ok a, st).

Definition mbind {A B} (m : M A) (k : A -> M B) : M B :=
  fun st =>
    match m st with
    | (Ok a, st') => k a st'
    | (Raise c e, st') => (Raise c e, st')
    end.

Definition lift {A} (r : result A) : M A := fun st => (r, st).

Definition get_session : M session_state := fun st => (Ok (session st), st).

Definition set_session (s : session_state) : M unit :=
  fun st => (Ok tt, {| session := s; disk := disk st |}).

Definition get_disk : M (gmap string (file_data pk)) :=
  fun st => (Ok (disk st), st).

Definition set_disk (fs : gmap string (file_data pk)) : M unit :=
  fun st => (Ok tt, {| session := session st; disk := fs |}).

(** [st.session_state.key] *)
Definition attr {A} (key : session_state -> option A) : M A :=
  fun st =>
    match key (session st) with
    | Some a => (Ok a, st)
    | None => (Raise AttributeError (lit "st.session_state has no attribute"), st)
    end.

End Store.

Arguments ret {pk A} a.
Arguments mbind {pk A B} m k.
Arguments lift {pk A} r.
Arguments get_session {pk}.
Arguments set_session {pk} s.
Arguments get_disk {pk}.
Arguments set_disk {pk} fs.
Arguments attr {pk A} key.
Arguments session {pk} a.
Arguments disk {pk} a.

Notation "'let+' x ':=' m 'in' k" := (mbind m (fun x => k))
  (at level 10, x name, m at level 100, k at level 200).

Section Script.

Context (pk : pickle).

(** The initialisation of the session state at the top of the script. *)
Definition initialize : M pk unit :=
  let+ s0 := get_session in
  let+ _ :=
    (match blogs s0 with
     | None =>
         let+ fs := get_disk in
         let+ loaded := lift (load_blogs pk fs) in
         set_session {| blogs := Some loaded;
                        blog_counter := blog_counter s0;
                        summaries := summaries s0;
                        summary_counter := summary_counter s0 |}
     | Some _ => ret tt
     end) in
  let+ s1 := get_session in
  let+ _ :=
    (match blog_counter s1 with
     | None =>
         let+ bs := attr blogs in
         set_session {| blogs := blogs s1;
                        blog_counter := Some (Z.of_nat (length bs) + 1);
                        summaries := summaries s1;
                        summary_counter := summary_counter s1 |}
     | Some _ => ret tt
     end) in
  let+ s2 := get_session in
  let+ _ :=
    (match summaries s2 with
     | None =>
         let+ fs := get_disk in
         let+ loaded := lift (load_summaries pk fs) in
         set_session {| blogs := blogs s2;
                        blog_counter := blog_counter s2;
                        summaries := Some loaded;
                        summary_counter := summary_counter s2 |}
     | Some _ => ret tt
     end) in
  let+ s3 := get_session in
  match summary_counter s3 with
  | None =>
      let+ ss := attr summaries in
      set_session {| blogs := blogs s3;
                     blog_counter := blog_counter s3;
                     summaries := summaries s3;
                     summary_counter := Some (Z.of_nat (length ss) + 1) |}
  | Some _ => ret tt
  end.

(** The handler of the blog form, once submitted. *)
Definition publish_blog (w : world) (user_name title content tag : str)
  : M pk outcome :=
  if negb (truthy user_name) || negb (truthy title) || negb (truthy content)
  then ret BlogMissingFields
  else if (length content <? 50)%nat then ret BlogTooShort
  else
    let+ rating := lift (rate_blog w content) in
    let+ counter := attr blog_counter in
    let new_blog :=
      {| Blog.id := counter;
         Blog.user_name := user_name;
         Blog.title := title;
         Blog.content := content;
         Blog.tag := if truthy tag then tag else lit "General Finance";
         Blog.time := now w;
         Blog.likes := 0;
         Blog.comments := 0;
         Blog.rating := rating |} in
    let+ bs := attr blogs in
    let+ s := get_session in
    let+ _ := set_session {| blogs := Some (bs ++ [new_blog]);
                             blog_counter := blog_counter s;
                             summaries := summaries s;
                             summary_counter := summary_counter s |} in
    let+ c := attr blog_counter in
    let+ s' := get_session in
    let+ _ := set_session {| blogs := blogs s';
                             blog_counter := Some (c + 1);
                             summaries := summaries s';
                             summary_counter := summary_counter s' |} in
    let+ saved := attr blogs in
    let+ fs := get_disk in
    let+ _ := set_disk (save_blogs pk saved fs) in
    ret (BlogPublished rating).

(** The handler of the "Generate Summary" button. *)
Definition generate_summary (w : world) (doc_title : str) (doc_type : doc_type)
    (doc_content : str) : M pk outcome :=
  if negb (truthy (strip doc_content)) then ret SummaryNoContent
  else if (length (strip doc_content) <? 100)%nat then ret SummaryTooShort
  else
    let label := doc_type_label doc_type in
    let+ text := lift (summarize_document w doc_content (str_lower w label)) in
    let+ counter := attr summary_counter in
    let summary_obj :=
      {| Summary.id := counter;
         Summary.title := if truthy doc_title then doc_title
                          else lit "Document " ++ of_Z counter;
         Summary.type := label;
         Summary.content := if (500 <? length doc_content)%nat
                            then firstn 500 doc_content ++ lit "..."
                            else doc_content;
         Summary.summary := text;
         Summary.timestamp := now w |} in
    let+ ss := attr summaries in
    let+ s := get_session in
    let+ _ := set_session {| blogs := blogs s;
                             blog_counter := blog_counter s;
                             summaries := Some (ss ++ [summary_obj]);
                             summary_counter := summary_counter s |} in
    let+ c := attr summary_counter in
    let+ s' := get_session in
    let+ _ := set_session {| blogs := blogs s';
                             blog_counter := blog_counter s';
                             summaries := summaries s';
                             summary_counter := Some (c + 1) |} in
    let+ saved := attr summaries in
    let+ fs := get_disk in
    let+ _ := set_disk (save_summaries pk saved fs) in
    ret (SummaryGenerated text).

(** One run of the script for a user action. *)
Definition script (w : world) (ev : event) : M pk outcome :=
  let+ _ := initialize in
  match ev with
  | PublishBlog user_name title content tag =>
      publish_blog w user_name title content tag
  | GenerateSummary doc_title doc_type doc_content =>
      generate_summary w doc_title doc_type doc_content
  | Browse => ret NothingSubmitted
  end.

(** The state after a sequence of runs, each with its own world. *)
Fixpoint run (evs : list (world * event)) (st : app_state pk) : app_state pk :=
  match evs with
  | [] => st
  | (w, ev) :: rest => run rest (snd (script w ev st))
  end.

(** What the runs of a sequence report, in order. *)
Fixpoint trace (evs : list (world * event)) (st : app_state pk)
  : list (result outcome) :=
  match evs with
  | [] => []
  | (w, ev) :: rest =>
      fst (script w ev st) :: trace rest (snd (script w ev st))
  end.

(** The state of a new session over the files [fs]. *)
Definition start (fs : gmap string (file_data pk)) : app_state pk :=
  {| session := fresh_session; disk := fs |}.

End Script.

(** ** Notions used in the properties *)

(** [pickle.load] gives back what [pickle.dump] wrote. *)
Definition pickle_faithful (pk : pickle) : Prop :=
  (forall bs, load_blogs_data pk (dump_blogs pk bs) = Ok bs)
  /\ (forall ss, load_summaries_data pk (dump_summaries pk ss) = Ok ss).

Definition valid_rating (b : Blog.t) : Prop := 1 <= Blog.rating b <= 5.

(** [n] consecutive integers from [first]. *)
Definition ids_from (first : Z) (n : nat) : list Z :=
  List.map (fun i => first + Z.of_nat i) (seq 0 n).

(** The record [publish_blog] builds. *)
Definition new_blog (w : world) (counter : Z) (user_name title content tag : str)
    (rating : Z) : Blog.t :=
  {| Blog.id := counter;
     Blog.user_name := user_name;
     Blog.title := title;
     Blog.content := content;
     Blog.tag := if truthy tag then tag else lit "General Finance";
     Blog.time := now w;
     Blog.likes := 0;
     Blog.comments := 0;
     Blog.rating := rating |}.

(** The record [generate_summary] builds. *)
Definition summary_obj (w : world) (counter : Z) (doc_title : str)
    (doc_type : doc_type) (doc_content text : str) : Summary.t :=
  {| Summary.id := counter;
     Summary.title := if truthy doc_title then doc_title
                      else lit "Document " ++ of_Z counter;
     Summary.type := doc_type_label doc_type;
     Summary.content := if (500 <? length doc_content)%nat
                        then firstn 500 doc_content ++ lit "..."
                        else doc_content;
     Summary.summary := text;
     Summary.timestamp := now w |}.

Definition is_published (r : result outcome) : bool :=
  match r with Ok (BlogPublished _) => true | _ => false end.

Definition is_generated (r : result outcome) : bool :=
  match r with Ok (SummaryGenerated _) => true | _ => false end.

(** The blogs of a session that found [X] in storage and has created
    [new] since: in the session (once loaded), on disk, and the counter. *)
Definition blogs_inv (pk : pickle) (X new : list Blog.t) (st : app_state pk)
  : Prop :=
  load_blogs pk (disk st) = Ok (X ++ new)
  /\ ((blogs (session st) = None /\ blog_counter (session st) = None /\ new = [])
      \/ (blogs (session st) = Some (X ++ new)
          /\ blog_counter (session st)
             = Some (Z.of_nat (length X) + Z.of_nat (length new) + 1)))
  /\ List.map Blog.id new = ids_from (Z.of_nat (length X) + 1) (length new)
  /\ Forall valid_rating new.

Definition summaries_inv (pk : pickle) (Y new : list Summary.t)
    (st : app_state pk) : Prop :=
  load_summaries pk (disk st) = Ok (Y ++ new)
  /\ ((summaries (session st) = None /\ summary_counter (session st) = None
       /\ new = [])
      \/ (summaries (session st) = Some (Y ++ new)
          /\ summary_counter (session st)
             = Some (Z.of_nat (length Y) + Z.of_nat (length new) + 1)))
  /\ List.map Summary.id new = ids_from (Z.of_nat (length Y) + 1) (length new).

(** The characters [parse_alerts] strips from a segment. *)
Definition alert_strippable (c : char) : Prop :=
  c = space \/ c = hyphen \/ c = asterisk \/ c = em_dash.

(** ** Sample inputs *)

Definition carriage_return : char := 13%N.

(** Lower-casing of the letters A to Z only. *)
Definition ascii_lower (s : str) : str :=
  List.map (fun c => if (65 <=? c) && (c <=? 90) then c + 32 else c)%N s.

(** A world whose model answers [reply] to every prompt, whose sentiment
    library finds the polarity [polarity] in every text, and whose news
    service answers [news]. *)
Definition sample_world (reply : result str) (polarity : PyNum.float)
    (news : result response) : world :=
  {| sentiment_polarity := fun _ => polarity;
     generate_content := fun _ => reply;
     http_get := fun _ => news;
     NEWS_API_KEY := lit "k";
     now := 0;
     str_lower := ascii_lower;
     str_of_value := fun _ => lit "?" |}.

Definition no_news : result response :=
  Raise RequestException (lit "offline").

(** A pickle that writes the list itself, tagged with its kind. *)
Definition sample_pickle : pickle :=
  {| file_data := (list Blog.t + list Summary.t)%type;
     dump_blogs := inl;
     load_blogs_data := fun d => match d with
                                 | inl bs => Ok bs
                                 | inr _ => Raise TypeError []
                                 end;
     dump_summaries := inr;
     load_summaries_data := fun d => match d with
                                     | inr ss => Ok ss
                                     | inl _ => Raise TypeError []
                                     end |}.

Definition sample_blog : Blog.t :=
  {| Blog.id := 1; Blog.user_name := lit "asha"; Blog.title := lit "Rates";
     Blog.content := lit "Rates rose."; Blog.tag := lit "General Finance";
     Blog.time := 0; Blog.likes := 0; Blog.comments := 0; Blog.rating := 3 |}.

(** A blog text of 60 characters. *)
Definition sample_content : str :=
  lit "Bond yields rose again this week as investors priced in more".

(** Runs of a session in which the model answers "9": a publication, a
    submission with too short a text, and a second publication. *)
Definition sample_events : list (world * event) :=
  let w := sample_world (Ok (lit "9")) (PyNum.Finite 0) no_news in
  [(w, PublishBlog (lit "asha") (lit "Rates") sample_content []);
   (w, PublishBlog (lit "asha") (lit "Rates") (lit "Too short.") []);
   (w, PublishBlog (lit "ravi") (lit "Bonds") sample_content (lit "Bonds"))].

(** A reply of the news service with two articles, the second without
    description. *)
Definition sample_news : result response :=
  Ok {| status_code := 200;
        json_body :=
          Ok (Json.Dict
                [(lit "status", Json.Str (lit "ok"));
                 (lit "articles",
                  Json.List
                    [Json.Dict [(lit "title", Json.Str (lit "Fed raises rates"));
                                (lit "description", Json.Str (lit "Banks gain"))];
                     Json.Dict [(lit "title", Json.Str (lit "Oil falls"));
                                (lit "description", Json.Null)]])]) |}.

(** ** The market alerts page *)

(** The colour of an alert card. *)
Inductive impact_class := Positive | Negative | Neutral.

Definition impact_class_of (w : world) (alert : AlertRecord) : impact_class :=
  let impact_lower := str_lower w (impact alert) in
  if contains impact_lower (lit "positive") then Positive
  else if contains impact_lower (lit "negative") then Negative
  else Neutral.

(** What the page shows. *)
Inductive alerts_view :=
  | NewsUnavailable
  | NoAlerts
  | AlertsFound (count : nat) (cards : list (impact_class * AlertRecord)).

(** The body of the page "Market Alerts". *)
Definition market_alerts_page (w : world) : result alerts_view :=
  let* news := fetch_news w in
  match news with
  | [] => Ok NewsUnavailable
  | _ =>
      let* alert_lines := get_stock_alerts w news in
      let alerts := parse_alerts alert_lines in
      match alerts with
      | [] => Ok NoAlerts
      | _ =>
          Ok (AlertsFound (length alerts)
                (List.map (fun alert => (impact_class_of w alert, alert)) alerts))
      end
  end.

(** ** Notions used in the further properties *)

(** The number of em dashes of a line. *)
Definition em_dashes (line : str) : nat :=
  length (List.filter (N.eqb em_dash) line).

(** A field holds no em dash and neither starts nor ends with a character
    that [parse_alerts] strips. *)
Definition clean_field (f : str) : Prop :=
  ~ In em_dash f
  /\ (forall c r, f = c :: r -> ~ alert_strippable c)
  /\ (forall c r, f = r ++ [c] -> ~ alert_strippable c).

Definition is_dict (v : Json.value) : bool :=
  match v with Json.Dict _ => true | _ => false end.

(** [article.get(key)] of a dictionary. *)
Definition field (article : Json.value) (key : str) : Json.value :=
  match article with
  | Json.Dict d => match lookup key d with Some x => x | None => Json.Null end
  | _ => Json.Null
  end.

(** The condition of the comprehension of [fetch_news]. *)
Definition keeps_article (article : Json.value) : bool :=
  Json.truthy (field article (lit "title"))
  && Json.truthy (field article (lit "description")).

(** The headline the comprehension makes of an article. *)
Definition headline_of (w : world) (article : Json.value) : str :=
  format_value w (field article (lit "title")) ++ lit ". "
  ++ format_value w (field article (lit "description")).

(** A reply of the news service as its documentation describes it: a
    success status code and a dictionary whose status is not "error" and
    whose articles are a list of dictionaries. *)
Definition well_formed_reply (r : response) (articles : list Json.value) : Prop :=
  (status_code r < 400 \/ 600 <= status_code r)
  /\ exists d,
      json_body r = Ok (Json.Dict d)
      /\ Json.eq_str (field (Json.Dict d) (lit "status")) (lit "error") = false
      /\ lookup (lit "articles") d = Some (Json.List articles).

(** A reply in which one entry of the articles is not a dictionary. *)
Definition sample_news_broken : response :=
  {| status_code := 200;
     json_body :=
       Ok (Json.Dict
             [(lit "status", Json.Str (lit "ok"));
              (lit "articles",
               Json.List
                 [Json.Dict [(lit "title", Json.Str (lit "Fed raises rates"));
                             (lit "description", Json.Str (lit "Banks gain"))];
                  Json.Null])]) |}.

Definition sample_news_reply : response :=
  {| status_code := 200;
     json_body :=
       Ok (Json.Dict
             [(lit "status", Json.Str (lit "ok"));
              (lit "articles",
               Json.List
                 [Json.Dict [(lit "title", Json.Str (lit "Fed raises rates"));
                             (lit "description", Json.Str (lit "Banks gain"))];
                  Json.Dict [(lit "title", Json.Str (lit "Oil falls"));
                             (lit "description", Json.Null)]])]) |}.

(** A world whose model call fails with the message [e], and one whose
    model replies [text]. *)
Definition failing_world (e : str) : world :=
  sample_world (Raise OtherException e) (PyNum.Finite 0) no_news.

Definition replying_world (text : str) : world :=
  sample_world (Ok text) (PyNum.Finite 0) no_news.

(** A session that has loaded nothing but empty lists. *)
Definition empty_loaded : app_state sample_pickle :=
  {| session := {| blogs := Some []; blog_counter := Some 1;
                   summaries := Some []; summary_counter := Some 1 |};
     disk := ∅ |}.

(** A document of 120 characters. *)
Definition sample_document : str :=
  sample_content ++ sample_content.

(** Files in which the blogs file does not hold a list of blogs. *)
Definition corrupt_files : gmap string (file_data sample_pickle) :=
  {[ blogs_path := inr [] ]}.

(** A character that can be no part of an integer literal: no decimal
    digit, underscore or sign, and no whitespace. *)
Definition not_numeric (c : char) : bool :=
  match decimal c with
  | Some _ => false
  | None =>
      negb (c =? underscore)%N && negb (c =? plus_sign)%N
      && negb (c =? hyphen)%N && negb (isspace c) && negb (int_space c)
  end.

(** The test of the partial match, on an entry of the dictionary. *)
Definition entry_matches (w : world) (search_term : str) (entry : str * str)
  : bool :=
  contains (str_lower w (fst entry)) (str_lower w (strip search_term)).

(** * Properties *)

(** ** Sentiment scorer *)

Lemma float_le_trans (x y z : PyNum.float) :
  PyNum.le x y = true -> PyNum.le y z = true -> PyNum.le x z = true.
Proof.
  destruct x as [a|[]|], y as [b|[]|], z as [c|[]|]; simpl; try congruence.
  rewrite !Qle_bool_iff. apply Qle_trans.
Qed.

Lemma float_lt_not_le (x y : PyNum.float) :
  PyNum.lt x y = true -> PyNum.le y x = false.
Proof.
  destruct x as [a|[]|], y as [b|[]|]; simpl; try congruence.
  apply negb_true_iff.
Qed.

Lemma polarity_rating_range (p : PyNum.float) : 1 <= polarity_rating p <= 5.
Proof.
  unfold polarity_rating.
  repeat match goal with |- context [if ?b then _ else _] => destruct b end; lia.
Qed.

Lemma polarity_rating_monotone (p1 p2 : PyNum.float) :
  PyNum.le p1 p2 = true -> polarity_rating p1 <= polarity_rating p2.
Proof.
  intros H. unfold polarity_rating.
  repeat match goal with
         | |- context [if PyNum.le p2 ?t then _ else _] =>
             let E := fresh "E" in
             destruct (PyNum.le p2 t) eqn:E;
             [ rewrite (float_le_trans p1 p2 t H E) | ]
         end;
  repeat match goal with |- context [if ?b then _ else _] => destruct b end;
  lia.
Qed.

Lemma thresholds_ordered :
  PyNum.le (PyNum.neg (PyNum.literal 6 10)) (PyNum.neg (PyNum.literal 2 10)) = true
  /\ PyNum.le (PyNum.neg (PyNum.literal 2 10)) (PyNum.literal 2 10) = true
  /\ PyNum.le (PyNum.literal 2 10) (PyNum.literal 6 10) = true.
Proof. vm_compute. auto. Qed.

(** C2. The sentiment scorer returns an integer in [1,5] that depends on
    the polarity alone: 1 for [p <= -0.6], 2 for [-0.6 < p <= -0.2], 3 for
    [-0.2 < p <= 0.2], 4 for [0.2 < p <= 0.6], 5 above; it is
    non-decreasing in the polarity, and the polarities -0.6, -0.2, 0.2 and
    0.6 themselves give 1, 2, 3 and 4. *)
Theorem sentiment_scorer_mapping :
  forall (w : world) (content : str),
    let p := sentiment_polarity w content in
    let r := rate_with_textblob w content in
    1 <= r <= 5
    /\ r = polarity_rating p
    /\ (PyNum.le p (PyNum.neg (PyNum.literal 6 10)) = true -> r = 1)
    /\ (PyNum.lt (PyNum.neg (PyNum.literal 6 10)) p = true ->
        PyNum.le p (PyNum.neg (PyNum.literal 2 10)) = true -> r = 2)
    /\ (PyNum.lt (PyNum.neg (PyNum.literal 2 10)) p = true ->
        PyNum.le p (PyNum.literal 2 10) = true -> r = 3)
    /\ (PyNum.lt (PyNum.literal 2 10) p = true ->
        PyNum.le p (PyNum.literal 6 10) = true -> r = 4)
    /\ (PyNum.lt (PyNum.literal 6 10) p = true -> r = 5)
    /\ (forall p1 p2, PyNum.le p1 p2 = true ->
                      polarity_rating p1 <= polarity_rating p2)
    /\ polarity_rating (PyNum.neg (PyNum.literal 6 10)) = 1
    /\ polarity_rating (PyNum.neg (PyNum.literal 2 10)) = 2
    /\ polarity_rating (PyNum.literal 2 10) = 3
    /\ polarity_rating (PyNum.literal 6 10) = 4.
Proof.
  intros w content p r.
  destruct thresholds_ordered as (O12 & O23 & O34).
  assert (below : forall t u, PyNum.le t u = true -> PyNum.lt u p = true ->
                              PyNum.le p t = false).
  { intros t u Htu Hup. destruct (PyNum.le p t) eqn:E; [|reflexivity].
    rewrite <- (float_lt_not_le _ _ Hup). symmetry.
    exact (float_le_trans _ _ _ E Htu). }
  subst r. unfold rate_with_textblob. fold p.
  split; [apply polarity_rating_range|].
  split; [reflexivity|].
  unfold polarity_rating at 1 2 3 4 5.
  split; [intros ->; reflexivity|].
  split.
  { intros H1 H2. rewrite (float_lt_not_le _ _ H1), H2. reflexivity. }
  split.
  { intros H1 H2.
    rewrite (below _ _ O12 H1), (float_lt_not_le _ _ H1), H2. reflexivity. }
  split.
  { intros H1 H2.
    rewrite (below _ _ (float_le_trans _ _ _ O12 O23) H1), (below _ _ O23 H1),
      (float_lt_not_le _ _ H1), H2. reflexivity. }
  split.
  { intros H1.
    rewrite (below _ _ (float_le_trans _ _ _ O12 (float_le_trans _ _ _ O23 O34)) H1),
      (below _ _ (float_le_trans _ _ _ O23 O34) H1), (below _ _ O34 H1),
      (float_lt_not_le _ _ H1). reflexivity. }
  split; [exact polarity_rating_monotone|].
  vm_compute. auto.
Qed.

(** ** Model-rating client and rating aggregator *)

Lemma rate_with_gemini_cases (w : world) (content : str) :
  rate_with_gemini w content
  = match generate_content w (rating_prompt content) with
    | Ok text => match PyStr.int (strip text) with
                 | Ok n => Ok (Some n)
                 | Raise _ _ => Ok None
                 end
    | Raise _ _ => Ok None
    end.
Proof.
  unfold rate_with_gemini, try_except.
  destruct (generate_content w (rating_prompt content)) as [text|c e]; simpl;
    [destruct (PyStr.int (strip text)); reflexivity | reflexivity].
Qed.

Lemma rate_with_gemini_total (w : world) (content : str) :
  exists r, rate_with_gemini w content = Ok r.
Proof.
  rewrite rate_with_gemini_cases.
  destruct (generate_content w (rating_prompt content)) as [text|c e];
    [destruct (PyStr.int (strip text))|]; eauto.
Qed.

Lemma weighted_average_exact (m b : Z) :
  1 <= m <= 5 -> 1 <= b <= 5 ->
  (let* quotient := PyNum.true_div (m * 4 + b) 5 in
   let* final := PyNum.round quotient in
   Ok (Z.max 1 (Z.min 5 final)))
  = Ok (Z.max 1 (Z.min 5 (PyNum.round_half_even (4 * m + b) 5)))
  /\ 2 * Z.abs (5 * PyNum.round_half_even (4 * m + b) 5 - (4 * m + b)) < 5.
Proof.
  intros Hm Hb.
  assert (Em : m = 1 \/ m = 2 \/ m = 3 \/ m = 4 \/ m = 5) by lia.
  assert (Eb : b = 1 \/ b = 2 \/ b = 3 \/ b = 4 \/ b = 5) by lia.
  destruct Em as [->|[->|[->|[->| ->]]]];
    destruct Eb as [->|[->|[->|[->| ->]]]];
    vm_compute; split; reflexivity.
Qed.

(** C1. With a model rating [m] in [1,5] and a heuristic rating [b] in
    [1,5], the aggregator returns [round((4m+b)/5)] clamped to [1,5], the
    rounding being to the nearest integer (no tie occurs); without a model
    rating ([None] or zero) it returns [b] as it is.  With [m=5, b=3] the
    result is 5, with [m=1, b=5] it is 2. *)
Theorem rating_aggregator_weighted :
  forall (w : world) (content : str) (m : Z),
    let b := rate_with_textblob w content in
    1 <= b <= 5
    /\ (rate_with_gemini w content = Ok (Some m) -> 1 <= m <= 5 ->
        rate_blog w content
        = Ok (Z.max 1 (Z.min 5 (PyNum.round_half_even (4 * m + b) 5)))
        /\ 2 * Z.abs (5 * PyNum.round_half_even (4 * m + b) 5 - (4 * m + b)) < 5)
    /\ (rate_with_gemini w content = Ok None
        \/ rate_with_gemini w content = Ok (Some 0) ->
        rate_blog w content = Ok b)
    /\ (rate_with_gemini w content = Ok (Some 5) -> b = 3 ->
        rate_blog w content = Ok 5)
    /\ (rate_with_gemini w content = Ok (Some 1) -> b = 5 ->
        rate_blog w content = Ok 2).
Proof.
  intros w content m b.
  assert (Hb : 1 <= b <= 5) by apply polarity_rating_range.
  split; [exact Hb|].
  split.
  { intros Hg Hm. unfold rate_blog. rewrite Hg. simpl bind.
    fold b. simpl rating_truthy.
    replace (negb (m =? 0)) with true
      by (symmetry; apply negb_true_iff, Z.eqb_neq; lia).
    apply weighted_average_exact; assumption. }
  split.
  { intros [Hg|Hg]; unfold rate_blog; rewrite Hg; reflexivity. }
  split.
  { intros Hg E. unfold rate_blog. rewrite Hg. simpl bind. fold b.
    rewrite E. vm_compute. reflexivity. }
  { intros Hg E. unfold rate_blog. rewrite Hg. simpl bind. fold b.
    rewrite E. vm_compute. reflexivity. }
Qed.

(** The same on a concrete run: the model answers "5" and the text is
    neutral. *)
Example rate_blog_sample :
  rate_blog (sample_world (Ok (lit " 5 ")) (PyNum.Finite 0) no_news)
            (lit "Bonds fell.")
  = Ok 5.
Proof. vm_compute. reflexivity. Qed.

Lemma rate_blog_range (w : world) (content : str) (r : Z) :
  rate_blog w content = Ok r -> 1 <= r <= 5.
Proof.
  unfold rate_blog.
  destruct (rate_with_gemini_total w content) as [g ->]. cbn [bind].
  pose proof (polarity_rating_range (sentiment_polarity w content)) as Hb.
  fold (rate_with_textblob w content) in Hb.
  destruct g as [g|]; [|intros [= <-]; exact Hb].
  destruct (rating_truthy (Some g)); [|intros [= <-]; exact Hb].
  match goal with
  | |- context [PyNum.true_div ?a ?d] => destruct (PyNum.true_div a d) as [q|]
  end; cbn [bind]; [|discriminate].
  destruct (PyNum.round q) as [f|]; cbn [bind]; [|discriminate].
  intros [= <-]. lia.
Qed.

(** C4, as the code has it.  The model-rating client never raises: it
    returns [None] when the call fails or the trimmed reply is not an
    integer literal, and otherwise the integer the trimmed reply denotes,
    whatever its value. *)
Theorem model_rating_client_total :
  forall (w : world) (content : str),
    (exists r, rate_with_gemini w content = Ok r)
    /\ (forall c e, generate_content w (rating_prompt content) = Raise c e ->
                    rate_with_gemini w content = Ok None)
    /\ (forall text, generate_content w (rating_prompt content) = Ok text ->
          (forall n, PyStr.int (strip text) = Ok n ->
                     rate_with_gemini w content = Ok (Some n))
          /\ (forall c e, PyStr.int (strip text) = Raise c e ->
                          rate_with_gemini w content = Ok None)).
Proof.
  intros w content. split; [apply rate_with_gemini_total|].
  rewrite rate_with_gemini_cases. split.
  - intros c e ->. reflexivity.
  - intros text ->. split.
    + intros n ->. reflexivity.
    + intros c e ->. reflexivity.
Qed.

(** C4 as stated fails: a reply "7" is returned as the rating 7. *)
Lemma model_rating_out_of_range :
  rate_with_gemini (sample_world (Ok (lit "7")) (PyNum.Finite 0) no_news)
                   (lit "Bonds fell.")
  = Ok (Some 7)
  /\ ~ (1 <= 7 <= 5).
Proof. split; [vm_compute; reflexivity | lia]. Qed.

(** ** Strings: stripping and splitting *)

Section Strip.

Variable f : char -> bool.

Lemma lstrip_by_spec (s : str) :
  exists pre, s = pre ++ lstrip_by f s
              /\ forallb f pre = true
              /\ match lstrip_by f s with
                 | c :: _ => f c = false
                 | [] => True
                 end.
Proof.
  induction s as [|c s IH]; simpl.
  - exists []. auto.
  - destruct (f c) eqn:E.
    + destruct IH as (pre & Hs & Hp & Hh).
      exists (c :: pre). simpl. rewrite E, Hp. split; [congruence|auto].
    + exists []. simpl. rewrite E. auto.
Qed.

Lemma lstrip_by_nil (s : str) :
  lstrip_by f s = [] <-> forallb f s = true.
Proof.
  induction s as [|c s IH]; simpl; [tauto|].
  destruct (f c); simpl; [exact IH | split; discriminate].
Qed.

Lemma forallb_rev (s : str) : forallb f (rev s) = forallb f s.
Proof.
  induction s as [|c s IH]; simpl; [reflexivity|].
  rewrite forallb_app, IH. simpl. rewrite andb_true_r. apply andb_comm.
Qed.

(** What [strip_by] removes and what it leaves. *)
Lemma strip_by_spec (s : str) :
  exists pre post,
    s = pre ++ strip_by f s ++ post
    /\ forallb f pre = true /\ forallb f post = true
    /\ match strip_by f s with
       | c :: _ => f c = false
       | [] => True
       end
    /\ match rev (strip_by f s) with
       | c :: _ => f c = false
       | [] => True
       end.
Proof.
  unfold strip_by, rstrip_by.
  destruct (lstrip_by_spec s) as (pre & Hs & Hpre & Hhd).
  destruct (lstrip_by_spec (rev (lstrip_by f s))) as (tl & Ht & Htl & Hlast).
  set (m := lstrip_by f (rev (lstrip_by f s))) in *.
  assert (Hl : lstrip_by f s = rev m ++ rev tl).
  { rewrite <- rev_app_distr, <- Ht. symmetry. apply rev_involutive. }
  exists pre, (rev tl). rewrite rev_involutive.
  split; [rewrite <- Hl; exact Hs|].
  split; [exact Hpre|]. split; [rewrite forallb_rev; exact Htl|].
  split; [|exact Hlast].
  destruct (rev m) as [|c r] eqn:Em; [exact I|].
  rewrite Hl in Hhd. exact Hhd.
Qed.

Lemma strip_by_nil (s : str) :
  strip_by f s = [] <-> forallb f s = true.
Proof.
  unfold strip_by, rstrip_by. split.
  - intros H. apply (f_equal (@rev char)) in H.
    rewrite rev_involutive in H. simpl in H.
    apply lstrip_by_nil in H. rewrite forallb_rev in H.
    destruct (lstrip_by_spec s) as (pre & Hs & Hpre & Hhd).
    destruct (lstrip_by f s) as [|c r] eqn:E.
    + apply lstrip_by_nil. exact E.
    + simpl in H. rewrite Hhd in H. discriminate.
  - intros H. apply lstrip_by_nil in H. rewrite H. reflexivity.
Qed.

Lemma lstrip_by_length (s : str) : (length (lstrip_by f s) <= length s)%nat.
Proof.
  induction s as [|c s IH]; simpl; [lia|]. destruct (f c); simpl; lia.
Qed.

Lemma strip_by_length (s : str) : (length (strip_by f s) <= length s)%nat.
Proof.
  unfold strip_by, rstrip_by. rewrite length_rev.
  etransitivity; [apply lstrip_by_length|]. rewrite length_rev.
  apply lstrip_by_length.
Qed.

End Strip.

Lemma mem_In (c : char) (s : str) : mem c s = true <-> In c s.
Proof.
  unfold mem. rewrite existsb_exists. split.
  - intros (x & Hx & E). apply N.eqb_eq in E. subst. exact Hx.
  - intros H. exists c. split; [exact H | apply N.eqb_refl].
Qed.

Lemma split_nonempty (sep : char) (s : str) : split sep s <> [].
Proof.
  destruct s as [|c s]; simpl; [discriminate|].
  destruct (c =? sep)%N; [discriminate|].
  destruct (split sep s); discriminate.
Qed.

Lemma split_join (sep : char) (s : str) : join [sep] (split sep s) = s.
Proof.
  induction s as [|c s IH]; simpl; [reflexivity|].
  pose proof (split_nonempty sep s) as Hne.
  destruct (split sep s) as [|seg segs] eqn:Es; [contradiction|].
  destruct (c =? sep)%N eqn:E.
  - apply N.eqb_eq in E. subst c. simpl in *. congruence.
  - destruct segs; simpl in *; congruence.
Qed.

Lemma split_no_sep (sep : char) (s : str) :
  Forall (fun seg => ~ In sep seg) (split sep s).
Proof.
  induction s as [|c s IH]; simpl.
  - constructor; [intros []|constructor].
  - destruct (c =? sep)%N eqn:E.
    + constructor; [intros []|exact IH].
    + apply N.eqb_neq in E.
      destruct (split sep s) as [|seg segs]; [repeat constructor; simpl; tauto|].
      inversion IH; subst. constructor; [|assumption].
      simpl. intros [H|H]; [congruence|contradiction].
Qed.

Lemma split_length (sep : char) (s : str) :
  length (split sep s) = S (length (List.filter (N.eqb sep) s)).
Proof.
  induction s as [|c s IH]; simpl; [reflexivity|].
  rewrite (N.eqb_sym sep c).
  destruct (c =? sep)%N; simpl; [congruence|].
  destruct (split sep s); simpl in *; congruence.
Qed.

(** ** News alert parser *)

Lemma alert_strippable_mem (c : char) :
  mem c alert_strip_chars = true <-> alert_strippable c.
Proof.
  rewrite mem_In. unfold alert_strippable.
  change alert_strip_chars with [space; hyphen; asterisk; em_dash].
  simpl. intuition congruence.
Qed.

Lemma forallb_strippable (s : str) :
  forallb (fun c => mem c alert_strip_chars) s = true ->
  Forall alert_strippable s.
Proof.
  rewrite forallb_forall, List.Forall_forall.
  intros H c Hc. apply alert_strippable_mem, H, Hc.
Qed.

Lemma truthy_strip (line : str) :
  truthy (strip line) = negb (forallb isspace line).
Proof.
  destruct (forallb isspace line) eqn:E.
  - apply (strip_by_nil isspace) in E. unfold strip. rewrite E. reflexivity.
  - unfold strip. destruct (strip_by isspace line) eqn:Es; [|reflexivity].
    apply strip_by_nil in Es. congruence.
Qed.

Lemma parse_alerts_app (l1 l2 : list str) :
  parse_alerts (l1 ++ l2) = parse_alerts l1 ++ parse_alerts l2.
Proof.
  induction l1 as [|line l1 IH]; simpl; [reflexivity|].
  destruct (parse_alert_line line); simpl; congruence.
Qed.

(** C3, as the code has it.  A line that is blank or has no em dash is
    skipped.  Any other line is split at its em dashes (the segments,
    joined by em dashes, give the line back, and there is one more of them
    than em dashes); each segment loses the spaces (U+0020), hyphens,
    asterisks and em dashes at its two ends and nothing else; with four
    segments or more the first four make one record, with fewer the line
    gives none.  The records come in the order of the lines, and the line
    about the Fed gives the record expected. *)
Theorem alert_parser_spec :
  (forall line,
      forallb isspace line = true \/ ~ In em_dash line ->
      parse_alert_line line = None)
  /\ (forall line,
        forallb isspace line = false -> In em_dash line ->
        (forall s0 s1 s2 s3 rest,
            split em_dash line = s0 :: s1 :: s2 :: s3 :: rest ->
            parse_alert_line line
            = Some {| headline := strip_chars alert_strip_chars s0;
                      stock := strip_chars alert_strip_chars s1;
                      impact := strip_chars alert_strip_chars s2;
                      summary := strip_chars alert_strip_chars s3 |})
        /\ ((length (split em_dash line) < 4)%nat ->
            parse_alert_line line = None))
  /\ (forall line,
        join [em_dash] (split em_dash line) = line
        /\ Forall (fun seg => ~ In em_dash seg) (split em_dash line)
        /\ length (split em_dash line)
           = S (length (List.filter (N.eqb em_dash) line)))
  /\ (forall seg,
        exists pre post,
          seg = pre ++ strip_chars alert_strip_chars seg ++ post
          /\ Forall alert_strippable pre /\ Forall alert_strippable post
          /\ (forall c r, strip_chars alert_strip_chars seg = c :: r ->
                          ~ alert_strippable c)
          /\ (forall c r, strip_chars alert_strip_chars seg = r ++ [c] ->
                          ~ alert_strippable c))
  /\ (forall l1 l2, parse_alerts (l1 ++ l2) = parse_alerts l1 ++ parse_alerts l2)
  /\ (forall line,
        parse_alerts [line]
        = match parse_alert_line line with Some a => [a] | None => [] end)
  /\ parse_alerts
       [lit "Fed raises rates — Banking — Negative — Higher rates squeeze margins"]
     = [ {| headline := lit "Fed raises rates"; stock := lit "Banking";
            impact := lit "Negative";
            summary := lit "Higher rates squeeze margins" |} ].
Proof.
  split.
  { intros line [H|H]; unfold parse_alert_line.
    - rewrite truthy_strip, H. reflexivity.
    - destruct (mem em_dash line) eqn:E; [apply mem_In in E; contradiction|].
      rewrite orb_true_r. reflexivity. }
  split.
  { intros line Hb Hd. unfold parse_alert_line.
    apply mem_In in Hd. rewrite truthy_strip, Hb, Hd. simpl negb. simpl orb.
    split.
    - intros s0 s1 s2 s3 rest ->. reflexivity.
    - intros Hlen.
      destruct (split em_dash line) as [|s0 [|s1 [|s2 [|s3 rest]]]];
        simpl in *; try reflexivity; lia. }
  split.
  { intros line. split; [apply split_join|].
    split; [apply split_no_sep | apply split_length]. }
  split.
  { intros seg. unfold strip_chars.
    destruct (strip_by_spec (fun c => mem c alert_strip_chars) seg)
      as (pre & post & Hs & Hpre & Hpost & Hhd & Hlast).
    exists pre, post. split; [exact Hs|].
    split; [apply forallb_strippable, Hpre|].
    split; [apply forallb_strippable, Hpost|].
    split.
    - intros c r E Hc. rewrite E in Hhd. cbv beta in Hhd.
      apply alert_strippable_mem in Hc. congruence.
    - intros c r E Hc. rewrite E, rev_app_distr in Hlast.
      cbn [rev app] in Hlast. cbv beta in Hlast.
      apply alert_strippable_mem in Hc. congruence. }
  split; [exact parse_alerts_app|].
  split.
  { intros line. simpl. destruct (parse_alert_line line); reflexivity. }
  vm_compute. reflexivity.
Qed.

(** C3 as stated fails: surrounding whitespace other than the space is
    kept.  A line that ends in a carriage return gives a record whose last
    field still ends in it. *)
Lemma alert_parser_keeps_carriage_return :
  parse_alerts
    [lit "Fed raises rates — Banking — Negative — Higher rates squeeze margins"
     ++ [carriage_return]]
  = [ {| headline := lit "Fed raises rates"; stock := lit "Banking";
         impact := lit "Negative";
         summary := lit "Higher rates squeeze margins" ++ [carriage_return] |} ]
  /\ isspace carriage_return = true.
Proof. vm_compute. split; reflexivity. Qed.

(** ** News-fetch boundary *)

Lemma try_except_all {A} (body : result A) (a : A) :
  try_except body
    [(is_Timeout, fun _ _ => Ok a);
     (is_RequestException, fun _ _ => Ok a);
     (is_Exception, fun _ _ => Ok a)]
  = match body with
    | Ok x => Ok x
    | Raise _ _ => Ok a
    end.
Proof. destruct body as [x|c e]; [reflexivity | destruct c; reflexivity]. Qed.

Lemma get_truthy_getitem (v : Json.value) (key : str) (x : Json.value) :
  Json.get v key Json.Null = Ok x -> Json.truthy x = true ->
  Json.getitem v key = Ok x.
Proof.
  destruct v; simpl; try discriminate.
  destruct (lookup key items) as [y|]; intros [= <-]; [reflexivity|].
  simpl. discriminate.
Qed.

Lemma headlines_In (w : world) (items : list Json.value) :
  forall hs h,
    headlines w items = Ok hs -> In h hs ->
    exists article t d,
      In article items
      /\ Json.get article (lit "title") Json.Null = Ok t
      /\ Json.get article (lit "description") Json.Null = Ok d
      /\ Json.truthy t = true /\ Json.truthy d = true
      /\ h = format_value w t ++ lit ". " ++ format_value w d.
Proof.
  induction items as [|article rest IH]; intros hs h; cbn [headlines].
  - intros [= <-] [].
  - destruct (Json.get article (lit "title") Json.Null) as [t|] eqn:Et;
      cbn [bind]; [|discriminate].
    assert (tail : headlines w rest = Ok hs -> In h hs ->
                   exists a t0 d0, In a (article :: rest)
                     /\ Json.get a (lit "title") Json.Null = Ok t0
                     /\ Json.get a (lit "description") Json.Null = Ok d0
                     /\ Json.truthy t0 = true /\ Json.truthy d0 = true
                     /\ h = format_value w t0 ++ lit ". " ++ format_value w d0).
    { intros H1 H2. destruct (IH hs h H1 H2) as (a & t0 & d0 & Ha & R).
      exists a, t0, d0. split; [right; exact Ha | exact R]. }
    destruct (Json.truthy t) eqn:Tt; cbn [bind]; [|exact tail].
    destruct (Json.get article (lit "description") Json.Null) as [d|] eqn:Ed;
      cbn [bind]; [|discriminate].
    destruct (Json.truthy d) eqn:Td; [|exact tail].
    rewrite (get_truthy_getitem _ _ _ Et Tt), (get_truthy_getitem _ _ _ Ed Td).
    cbn [bind].
    destruct (headlines w rest) as [more|] eqn:Em; cbn [bind]; [|discriminate].
    intros [= <-] [<-|Hin].
    + exists article, t, d. repeat split; auto. left; reflexivity.
    + destruct (IH more h eq_refl Hin) as (a & t0 & d0 & Ha & R).
      exists a, t0, d0. split; [right; exact Ha | exact R].
Qed.

Lemma fetch_news_unfold (w : world) :
  fetch_news w
  = match
      (let* response := http_get w (news_url w) in
       let* _ := raise_for_status response in
       let* data := json_body response in
       let* status := Json.get data (lit "status") Json.Null in
       if Json.eq_str status (lit "error") then Ok []
       else
         let* articles := Json.get data (lit "articles") (Json.List []) in
         if negb (Json.truthy articles) then Ok []
         else
           let* items := Json.iter articles in
           headlines w items)
    with
    | Ok hs => Ok hs
    | Raise _ _ => Ok []
    end.
Proof. unfold fetch_news. apply try_except_all. Qed.

(** C9. The news fetch never raises.  It returns the empty list when the
    request raises (time-out, network error or anything else), when the
    status code is an error, when the body is not JSON, when the body says
    [status: error], and when there are no articles.  Every headline it
    returns is made from one article of the reply whose title and
    description are both truthy, as the title, then ". ", then the
    description; for a title and a description that are strings, both are
    non-empty. *)
Theorem news_fetch_boundary :
  forall (w : world),
    (exists hs, fetch_news w = Ok hs)
    /\ (forall c e, http_get w (news_url w) = Raise c e -> fetch_news w = Ok [])
    /\ (forall r, http_get w (news_url w) = Ok r ->
          (400 <= status_code r < 600 -> fetch_news w = Ok [])
          /\ (forall c e, json_body r = Raise c e -> fetch_news w = Ok [])
          /\ (forall data,
                json_body r = Ok data ->
                (Json.get data (lit "status") Json.Null
                 = Ok (Json.Str (lit "error")) -> fetch_news w = Ok [])
                /\ (forall articles,
                      Json.get data (lit "articles") (Json.List []) = Ok articles ->
                      Json.truthy articles = false -> fetch_news w = Ok [])))
    /\ (forall hs h,
          fetch_news w = Ok hs -> In h hs ->
          exists r data articles items article t d,
            http_get w (news_url w) = Ok r
            /\ json_body r = Ok data
            /\ Json.get data (lit "articles") (Json.List []) = Ok articles
            /\ Json.iter articles = Ok items
            /\ In article items
            /\ Json.get article (lit "title") Json.Null = Ok t
            /\ Json.get article (lit "description") Json.Null = Ok d
            /\ Json.truthy t = true /\ Json.truthy d = true
            /\ h = format_value w t ++ lit ". " ++ format_value w d
            /\ (forall ts ds, t = Json.Str ts -> d = Json.Str ds ->
                              ts <> [] /\ ds <> [] /\ h = ts ++ lit ". " ++ ds)).
Proof.
  intros w. rewrite fetch_news_unfold.
  split.
  { match goal with |- exists hs, match ?b with _ => _ end = _ =>
      destruct b; eauto end. }
  split.
  { intros c e ->. reflexivity. }
  split.
  { intros r ->. cbn [bind]. split.
    - intros Hs. unfold raise_for_status.
      replace ((400 <=? status_code r) && (status_code r <? 600)) with true
        by (symmetry; apply andb_true_iff; split;
            [apply Z.leb_le | apply Z.ltb_lt]; lia).
      reflexivity.
    - destruct (raise_for_status r) as [[]|]; cbn [bind].
      + split.
        * intros c e ->. reflexivity.
        * intros data ->. cbn [bind]. split.
          -- intros ->. cbn [bind]. reflexivity.
          -- intros articles Ha Ht.
             destruct (Json.get data (lit "status") Json.Null) as [st|];
               cbn [bind]; [|reflexivity].
             destruct (Json.eq_str st (lit "error")); [reflexivity|].
             rewrite Ha. cbn [bind]. rewrite Ht. reflexivity.
      + split; [reflexivity|]. intros data _.
        split; [reflexivity|]. intros; reflexivity. }
  intros hs h.
  destruct (http_get w (news_url w)) as [r|] eqn:Er; cbn [bind];
    [|intros [= <-] []].
  destruct (raise_for_status r) as [[]|]; cbn [bind]; [|intros [= <-] []].
  destruct (json_body r) as [data|] eqn:Ed; cbn [bind]; [|intros [= <-] []].
  destruct (Json.get data (lit "status") Json.Null) as [st|]; cbn [bind];
    [|intros [= <-] []].
  destruct (Json.eq_str st (lit "error")); [intros [= <-] []|].
  destruct (Json.get data (lit "articles") (Json.List [])) as [articles|] eqn:Ea;
    cbn [bind]; [|intros [= <-] []].
  destruct (negb (Json.truthy articles)); [intros [= <-] []|].
  destruct (Json.iter articles) as [items|] eqn:Ei; cbn [bind];
    [|intros [= <-] []].
  destruct (headlines w items) as [hs'|] eqn:Eh; [|intros [= <-] []].
  intros [= <-] Hin.
  destruct (headlines_In w items hs' h Eh Hin)
    as (article & t & d & Ha & Ht & Hd & Tt & Td & Hh).
  exists r, data, articles, items, article, t, d.
  repeat (split; [first [reflexivity | assumption]|]).
  intros ts ds -> ->. simpl in Tt, Td, Hh.
  repeat split; [destruct ts | destruct ds | exact Hh]; simpl in *; congruence.
Qed.

(** On a reply with two articles, one of them without description, one
    headline comes back. *)
Example fetch_news_sample :
  fetch_news (sample_world (Ok []) (PyNum.Finite 0) sample_news)
  = Ok [lit "Fed raises rates. Banks gain"].
Proof. vm_compute. reflexivity. Qed.

(** ** Glossary search *)

Lemma eqb_eq (s t : str) : PyStr.eqb s t = true <-> s = t.
Proof.
  revert t. induction s as [|c s IH]; intros [|d t]; simpl;
    try (split; [discriminate | congruence]); [tauto|].
  rewrite andb_true_iff, N.eqb_eq, IH. split; [intros [-> ->]|intros [= -> ->]]; auto.
Qed.

Lemma startswith_spec (s p : str) :
  startswith s p = true <-> exists post, s = p ++ post.
Proof.
  revert s. induction p as [|d p IH]; intros s; simpl.
  - split; [intros _; exists s; reflexivity | destruct s; reflexivity].
  - destruct s as [|c s]; simpl.
    + split; [discriminate | intros (post & H); discriminate].
    + rewrite andb_true_iff, N.eqb_eq, IH. split.
      * intros (-> & post & ->). exists post. reflexivity.
      * intros (post & [= -> ->]). split; [reflexivity | exists post; reflexivity].
Qed.

Lemma contains_spec (s sub : str) :
  contains s sub = true <-> exists pre post, s = pre ++ sub ++ post.
Proof.
  induction s as [|c s IH]; cbn [contains].
  - rewrite orb_false_r, startswith_spec. split.
    + intros (post & H). exists [], post. exact H.
    + intros (pre & post & H). destruct pre; [exists post; exact H | discriminate].
  - rewrite orb_true_iff, startswith_spec, IH. split.
    + intros [(post & H)|(pre & post & H)].
      * exists [], post. exact H.
      * exists (c :: pre), post. simpl. congruence.
    + intros (pre & post & H). destruct pre as [|c' pre].
      * left. exists post. exact H.
      * right. injection H as _ H. exists pre, post. exact H.
Qed.

Lemma lookup_keys {V} (key : str) (items : list (str * V)) :
  In key (List.map fst items) -> exists v, lookup key items = Some v.
Proof.
  induction items as [|[k v] rest IH]; simpl; [intros []|].
  destruct (PyStr.eqb key k) eqn:E; [eauto|].
  intros [H|H]; [|exact (IH H)].
  subst k. assert (PyStr.eqb key key = true) by (apply eqb_eq; reflexivity).
  congruence.
Qed.

Lemma filter_all {A} (f : A -> bool) (l : list A) :
  (forall x, f x = true) -> List.filter f l = l.
Proof.
  intros H. induction l as [|x l IH]; simpl; [reflexivity|].
  rewrite H, IH. reflexivity.
Qed.

Lemma glossary_search_unfold (w : world) (search_term : str) (search_button : bool) :
  truthy search_term || search_button = true ->
  glossary_search w search_term search_button
  = Some
      match lookup (strip search_term) FINANCE_TERMS with
      | Some d => ExactMatch (strip search_term) d
      | None =>
          let matches :=
            List.filter
              (fun term => contains (str_lower w term)
                                    (str_lower w (strip search_term)))
              (List.map fst FINANCE_TERMS) in
          match matches with
          | _ :: _ =>
              PartialMatches
                (length matches)
                (List.map (fun m => (m, term_definition m)) (firstn 5 matches))
                (if (5 <? length matches)%nat
                 then Some (length matches - 5)%nat else None)
          | [] => TermNotFound
          end
      end.
Proof.
  intros H. unfold glossary_search. rewrite H.
  destruct (lookup (strip search_term) FINANCE_TERMS); [reflexivity|].
  cbv zeta. destruct (List.filter _ _); reflexivity.
Qed.

(** C10. When the search runs (text entered or button pressed): a trimmed
    query that is a key of the dictionary gives that term with its
    definition; any other gives the terms whose lower-cased name contains
    the lower-cased trimmed query, the first five of them shown, each with
    its definition; and a query empty after trimming matches all 25
    terms. *)
Theorem glossary_search_spec :
  forall (w : world) (search_term : str) (search_button : bool),
    truthy search_term || search_button = true ->
    let q := strip search_term in
    let matches :=
      List.filter (fun term => contains (str_lower w term) (str_lower w q))
                  (List.map fst FINANCE_TERMS) in
    (forall d, lookup q FINANCE_TERMS = Some d ->
               glossary_search w search_term search_button
               = Some (ExactMatch q d))
    /\ (lookup q FINANCE_TERMS = None ->
        (matches = [] ->
         glossary_search w search_term search_button = Some TermNotFound)
        /\ (matches <> [] ->
            glossary_search w search_term search_button
            = Some (PartialMatches
                      (length matches)
                      (List.map (fun m => (m, term_definition m))
                                (firstn 5 matches))
                      (if (5 <? length matches)%nat
                       then Some (length matches - 5)%nat else None))))
    /\ (forall term,
          In term matches <->
          In term (List.map fst FINANCE_TERMS)
          /\ exists pre post, str_lower w term = pre ++ str_lower w q ++ post)
    /\ (length (firstn 5 matches) <= 5)%nat
    /\ (forall m, In m matches ->
                  lookup m FINANCE_TERMS = Some (term_definition m))
    /\ (q = [] -> str_lower w [] = [] ->
        matches = List.map fst FINANCE_TERMS
        /\ length matches = 25%nat
        /\ glossary_search w search_term search_button
           = Some (PartialMatches
                     25
                     (firstn 5 FINANCE_TERMS)
                     (Some 20%nat))).
Proof.
  intros w search_term search_button Hrun q matches.
  pose proof (glossary_search_unfold w search_term search_button Hrun) as U.
  fold q in U. cbv zeta in U. fold matches in U.
  split; [intros d Hd; rewrite U, Hd; reflexivity|].
  split.
  { intros Hn. rewrite U, Hn. split.
    - intros ->. reflexivity.
    - intros Hne. destruct matches; [contradiction | reflexivity]. }
  split.
  { intros term. unfold matches. rewrite filter_In, contains_spec. tauto. }
  split; [apply firstn_le_length|].
  split.
  { intros m Hm. unfold matches in Hm. apply filter_In in Hm as [Hm _].
    unfold term_definition.
    destruct (lookup_keys m FINANCE_TERMS Hm) as (v & ->). reflexivity. }
  intros Hq Hl.
  assert (Hall : matches = List.map fst FINANCE_TERMS).
  { unfold matches. apply filter_all. intros term. rewrite Hq, Hl.
    apply contains_spec. exists [], (str_lower w term). reflexivity. }
  split; [exact Hall|].
  split; [rewrite Hall; vm_compute; reflexivity|].
  rewrite U, Hq, Hall. vm_compute. reflexivity.
Qed.

(** A query of two spaces runs the search and matches every term. *)
Lemma glossary_search_blank_query :
  glossary_search (sample_world (Ok []) (PyNum.Finite 0) no_news) (lit "  ") false
  = Some (PartialMatches 25 (firstn 5 FINANCE_TERMS) (Some 20%nat)).
Proof.
  apply (glossary_search_spec
           (sample_world (Ok []) (PyNum.Finite 0) no_news) (lit "  ") false
           eq_refl);
    reflexivity.
Defined.

Example glossary_search_roi :
  glossary_search (sample_world (Ok []) (PyNum.Finite 0) no_news) (lit " ROI ") false
  = Some (ExactMatch (lit "ROI")
            (lit "निवेश प्रतिफल / Retour sur investissement / Retorno de inversión - Return on Investment percentage")).
Proof. vm_compute. reflexivity. Qed.

Example glossary_search_market :
  glossary_search (sample_world (Ok []) (PyNum.Finite 0) no_news) (lit "market") true
  = Some (PartialMatches 3
            [(lit "Market Cap", term_definition (lit "Market Cap"));
             (lit "Bull Market", term_definition (lit "Bull Market"));
             (lit "Bear Market", term_definition (lit "Bear Market"))]
            None).
Proof. vm_compute. reflexivity. Qed.

(** ** Record store *)

Lemma paths_differ : blogs_path <> summaries_path.
Proof. discriminate. Qed.

Lemma load_save_blogs (pk : pickle) (X : list Blog.t) fs :
  pickle_faithful pk -> load_blogs pk (save_blogs pk X fs) = Ok X.
Proof.
  intros [H _]. unfold load_blogs, save_blogs.
  rewrite lookup_insert_eq. apply H.
Qed.

Lemma load_save_summaries (pk : pickle) (Y : list Summary.t) fs :
  pickle_faithful pk -> load_summaries pk (save_summaries pk Y fs) = Ok Y.
Proof.
  intros [_ H]. unfold load_summaries, save_summaries.
  rewrite lookup_insert_eq. apply H.
Qed.

Lemma load_blogs_save_summaries (pk : pickle) (Y : list Summary.t) fs :
  load_blogs pk (save_summaries pk Y fs) = load_blogs pk fs.
Proof.
  unfold load_blogs, save_summaries.
  rewrite lookup_insert_ne; [reflexivity|]. intros E. symmetry in E.
  exact (paths_differ E).
Qed.

Lemma load_summaries_save_blogs (pk : pickle) (X : list Blog.t) fs :
  load_summaries pk (save_blogs pk X fs) = load_summaries pk fs.
Proof.
  unfold load_summaries, save_blogs.
  rewrite lookup_insert_ne; [reflexivity|]. exact paths_differ.
Qed.

(** C7. When [pickle.load] gives back what [pickle.dump] wrote, loading
    after saving returns the list saved, for blogs and for summaries, the
    empty list included; saving one kind leaves the other as it was; and
    loading when the file does not exist returns the empty list. *)
Theorem record_store_round_trip :
  forall (pk : pickle),
    pickle_faithful pk ->
    forall (X : list Blog.t) (Y : list Summary.t) (fs : gmap string (file_data pk)),
      load_blogs pk (save_blogs pk X fs) = Ok X
      /\ load_summaries pk (save_summaries pk Y fs) = Ok Y
      /\ load_blogs pk (save_blogs pk [] fs) = Ok []
      /\ load_summaries pk (save_summaries pk [] fs) = Ok []
      /\ load_blogs pk (save_summaries pk Y fs) = load_blogs pk fs
      /\ load_summaries pk (save_blogs pk X fs) = load_summaries pk fs
      /\ (fs !! blogs_path = None -> load_blogs pk fs = Ok [])
      /\ (fs !! summaries_path = None -> load_summaries pk fs = Ok []).
Proof.
  intros pk Hpk X Y fs.
  repeat split;
    auto using load_save_blogs, load_save_summaries,
               load_blogs_save_summaries, load_summaries_save_blogs.
  - intros H. unfold load_blogs. rewrite H. reflexivity.
  - intros H. unfold load_summaries. rewrite H. reflexivity.
Qed.

Lemma record_store_round_trip_sample :
  load_blogs sample_pickle (save_blogs sample_pickle [sample_blog] ∅)
  = Ok [sample_blog]
  /\ load_blogs sample_pickle ∅ = Ok [].
Proof.
  pose proof (record_store_round_trip sample_pickle
                (conj (fun bs => eq_refl) (fun ss => eq_refl))
                [sample_blog] [] ∅) as H.
  split; [apply H | apply H; reflexivity].
Defined.

(** ** Runs of the script *)

#[local] Arguments load_blogs : simpl never.
#[local] Arguments load_summaries : simpl never.
#[local] Arguments save_blogs : simpl never.
#[local] Arguments save_summaries : simpl never.
#[local] Arguments rate_blog : simpl never.
#[local] Arguments summarize_document : simpl never.
#[local] Arguments lit : simpl never.
#[local] Arguments of_Z : simpl never.
#[local] Arguments strip : simpl never.

Ltac run_monad :=
  cbv beta iota zeta delta
      [initialize script publish_blog generate_summary mbind ret lift
       get_session set_session get_disk set_disk attr
       session disk blogs blog_counter summaries summary_counter fst snd].

Section Runs.

Context (pk : pickle).

Lemma initialize_disk (st : app_state pk) :
  disk (snd (initialize pk st)) = disk st.
Proof.
  destruct st as [[ob oc os osc] fs].
  destruct ob, oc, os, osc; run_monad;
    destruct (load_blogs pk fs), (load_summaries pk fs); reflexivity.
Qed.

Lemma initialize_ok (st : app_state pk) :
  fst (initialize pk st) = Ok tt ->
  exists bs c ss sc,
    session (snd (initialize pk st))
    = {| blogs := Some bs; blog_counter := Some c;
         summaries := Some ss; summary_counter := Some sc |}.
Proof.
  destruct st as [[ob oc os osc] fs].
  destruct ob, oc, os, osc; run_monad;
    destruct (load_blogs pk fs), (load_summaries pk fs);
    cbn; intros H; try discriminate; eauto 8.
Qed.

Lemma initialize_blogs_inv (X new : list Blog.t) (st : app_state pk) :
  blogs_inv pk X new st -> blogs_inv pk X new (snd (initialize pk st)).
Proof.
  unfold blogs_inv. rewrite initialize_disk.
  intros (Hd & Hs & Hi & Hv). split; [exact Hd|]. split; [|auto].
  destruct st as [[ob oc os osc] fs]. cbn in Hd, Hs.
  destruct Hs as [(-> & -> & ->)|(-> & ->)].
  - right. rewrite app_nil_r in *.
    destruct os, osc; run_monad; rewrite Hd; cbn;
      destruct (load_summaries pk fs); cbn;
      (split; [reflexivity | f_equal; lia]).
  - right.
    destruct os, osc; run_monad; destruct (load_summaries pk fs); cbn;
      (split; reflexivity).
Qed.

Lemma initialize_summaries_inv (Y new : list Summary.t) (st : app_state pk) :
  summaries_inv pk Y new st -> summaries_inv pk Y new (snd (initialize pk st)).
Proof.
  unfold summaries_inv. rewrite initialize_disk.
  intros (Hd & Hs & Hi). split; [exact Hd|]. split; [|auto].
  destruct st as [[ob oc os osc] fs]. cbn in Hd, Hs.
  destruct Hs as [(-> & -> & ->)|(-> & ->)].
  - rewrite app_nil_r in *.
    destruct ob, oc; run_monad; destruct (load_blogs pk fs); cbn;
      rewrite ?Hd; cbn;
      try (left; repeat split; reflexivity);
      right; (split; [reflexivity | f_equal; lia]).
  - right.
    destruct ob, oc; run_monad; destruct (load_blogs pk fs); cbn;
      (split; reflexivity).
Qed.

Lemma publish_blog_cases (w : world) (user_name title content tag : str)
    bs c os osc fs :
  let st := {| session := {| blogs := Some bs; blog_counter := Some c;
                             summaries := os; summary_counter := osc |};
               disk := fs |} in
  publish_blog pk w user_name title content tag st
  = if negb (truthy user_name) || negb (truthy title) || negb (truthy content)
    then (Ok BlogMissingFields, st)
    else if (length content <? 50)%nat then (Ok BlogTooShort, st)
    else match rate_blog w content with
         | Ok rating =>
             let b := new_blog w c user_name title content tag rating in
             (Ok (BlogPublished rating),
              {| session := {| blogs := Some (bs ++ [b]);
                               blog_counter := Some (c + 1);
                               summaries := os; summary_counter := osc |};
                 disk := save_blogs pk (bs ++ [b]) fs |})
         | Raise cl e => (Raise cl e, st)
         end.
Proof.
  intros st. subst st. run_monad.
  destruct (negb (truthy user_name) || negb (truthy title)
            || negb (truthy content)); [reflexivity|].
  destruct (length content <? 50)%nat; [reflexivity|].
  destruct (rate_blog w content); reflexivity.
Qed.

Lemma generate_summary_cases (w : world) (doc_title : str) (ty : doc_type)
    (doc_content : str) ob oc ss sc fs :
  let st := {| session := {| blogs := ob; blog_counter := oc;
                             summaries := Some ss;
                             summary_counter := Some sc |};
               disk := fs |} in
  generate_summary pk w doc_title ty doc_content st
  = if negb (truthy (strip doc_content)) then (Ok SummaryNoContent, st)
    else if (length (strip doc_content) <? 100)%nat
    then (Ok SummaryTooShort, st)
    else match summarize_document w doc_content
                 (str_lower w (doc_type_label ty)) with
         | Ok text =>
             let o := summary_obj w sc doc_title ty doc_content text in
             (Ok (SummaryGenerated text),
              {| session := {| blogs := ob; blog_counter := oc;
                               summaries := Some (ss ++ [o]);
                               summary_counter := Some (sc + 1) |};
                 disk := save_summaries pk (ss ++ [o]) fs |})
         | Raise cl e => (Raise cl e, st)
         end.
Proof.
  intros st. subst st. run_monad.
  destruct (negb (truthy (strip doc_content))); [reflexivity|].
  destruct (length (strip doc_content) <? 100)%nat; [reflexivity|].
  destruct (summarize_document w doc_content
              (str_lower w (doc_type_label ty))); reflexivity.
Qed.

Lemma script_unfold (w : world) (ev : event) (st : app_state pk) :
  script pk w ev st
  = match initialize pk st with
    | (Ok _, st1) =>
        match ev with
        | PublishBlog user_name title content tag =>
            publish_blog pk w user_name title content tag st1
        | GenerateSummary doc_title ty doc_content =>
            generate_summary pk w doc_title ty doc_content st1
        | Browse => (Ok NothingSubmitted, st1)
        end
    | (Raise c e, st1) => (Raise c e, st1)
    end.
Proof.
  unfold script, mbind.
  destruct (initialize pk st) as [[[]|c e] st1]; [|reflexivity].
  destruct ev; reflexivity.
Qed.

Lemma ids_from_snoc (first : Z) (n : nat) :
  ids_from first (S n) = ids_from first n ++ [first + Z.of_nat n].
Proof.
  unfold ids_from. rewrite seq_S, List.map_app. reflexivity.
Qed.

Hypothesis pk_faithful : pickle_faithful pk.

(** One run keeps the blogs as they are or appends one valid record
    with the next identifier; it does the latter exactly when it
    reports a publication. *)
Lemma script_blogs_step (X new : list Blog.t) (st : app_state pk)
    (w : world) (ev : event) :
  blogs_inv pk X new st ->
  (is_published (fst (script pk w ev st)) = false
   /\ blogs_inv pk X new (snd (script pk w ev st)))
  \/ (is_published (fst (script pk w ev st)) = true
      /\ exists b, blogs_inv pk X (new ++ [b]) (snd (script pk w ev st))).
Proof using pk_faithful.
  intros Hinv. apply initialize_blogs_inv in Hinv.
  rewrite script_unfold. pose proof (initialize_ok st) as Hok.
  destruct (initialize pk st) as [[[]|c e] st1]; cbn [fst snd] in *;
    [|left; split; [reflexivity | exact Hinv]].
  destruct (Hok eq_refl) as (bs & c & ss & sc & Hs).
  destruct st1 as [s1 fs1]. cbn in Hs. subst s1.
  pose proof Hinv as (Hd & Hsess & Hids & Hval). cbn in Hd, Hsess.
  destruct Hsess as [(H & _)|(Hb & Hc)]; [discriminate|].
  injection Hb as ->. injection Hc as ->.
  destruct ev as [user_name title content tag|doc_title ty doc_content|].
  - rewrite publish_blog_cases. cbv zeta.
    destruct (negb (truthy user_name) || negb (truthy title)
              || negb (truthy content));
      [left; split; [reflexivity | exact Hinv]|].
    destruct (length content <? 50)%nat;
      [left; split; [reflexivity | exact Hinv]|].
    destruct (rate_blog w content) as [rating|cl e] eqn:Er;
      [|left; split; [reflexivity | exact Hinv]].
    right. split; [reflexivity|]. eexists. unfold blogs_inv. cbn.
    rewrite <- !app_assoc.
    split; [apply load_save_blogs, pk_faithful|].
    split; [right; split; [reflexivity|]|split].
    + rewrite length_app. cbn. f_equal. lia.
    + rewrite List.map_app, length_app, Nat.add_1_r, ids_from_snoc, Hids.
      cbn. f_equal. f_equal. lia.
    + apply Forall_app. split; [exact Hval|]. constructor; [|constructor].
      unfold valid_rating. cbn. exact (rate_blog_range _ _ _ Er).
  - left. rewrite generate_summary_cases. cbv zeta.
    destruct (negb (truthy (strip doc_content)));
      [split; [reflexivity | exact Hinv]|].
    destruct (length (strip doc_content) <? 100)%nat;
      [split; [reflexivity | exact Hinv]|].
    destruct (summarize_document w doc_content
                (str_lower w (doc_type_label ty)));
      [|split; [reflexivity | exact Hinv]].
    split; [reflexivity|]. unfold blogs_inv. cbn.
    rewrite load_blogs_save_summaries. split; [exact Hd|].
    split; [right; split; reflexivity|]. split; assumption.
  - left. split; [reflexivity | exact Hinv].
Qed.

Lemma script_summaries_step (Y new : list Summary.t) (st : app_state pk)
    (w : world) (ev : event) :
  summaries_inv pk Y new st ->
  (is_generated (fst (script pk w ev st)) = false
   /\ summaries_inv pk Y new (snd (script pk w ev st)))
  \/ (is_generated (fst (script pk w ev st)) = true
      /\ exists o, summaries_inv pk Y (new ++ [o]) (snd (script pk w ev st))).
Proof using pk_faithful.
  intros Hinv. apply initialize_summaries_inv in Hinv.
  rewrite script_unfold. pose proof (initialize_ok st) as Hok.
  destruct (initialize pk st) as [[[]|c e] st1]; cbn [fst snd] in *;
    [|left; split; [reflexivity | exact Hinv]].
  destruct (Hok eq_refl) as (bs & c & ss & sc & Hs).
  destruct st1 as [s1 fs1]. cbn in Hs. subst s1.
  pose proof Hinv as (Hd & Hsess & Hids). cbn in Hd, Hsess.
  destruct Hsess as [(H & _)|(Hb & Hc)]; [discriminate|].
  injection Hb as ->. injection Hc as ->.
  destruct ev as [user_name title content tag|doc_title ty doc_content|].
  - left. rewrite publish_blog_cases. cbv zeta.
    destruct (negb (truthy user_name) || negb (truthy title)
              || negb (truthy content));
      [split; [reflexivity | exact Hinv]|].
    destruct (length content <? 50)%nat;
      [split; [reflexivity | exact Hinv]|].
    destruct (rate_blog w content) as [rating|cl e];
      [|split; [reflexivity | exact Hinv]].
    split; [reflexivity|]. unfold summaries_inv. cbn.
    rewrite load_summaries_save_blogs. split; [exact Hd|].
    split; [right; split; reflexivity | assumption].
  - rewrite generate_summary_cases. cbv zeta.
    destruct (negb (truthy (strip doc_content)));
      [left; split; [reflexivity | exact Hinv]|].
    destruct (length (strip doc_content) <? 100)%nat;
      [left; split; [reflexivity | exact Hinv]|].
    destruct (summarize_document w doc_content
                (str_lower w (doc_type_label ty))) as [text|cl e];
      [|left; split; [reflexivity | exact Hinv]].
    right. split; [reflexivity|]. eexists. unfold summaries_inv. cbn.
    rewrite <- !app_assoc.
    split; [apply load_save_summaries, pk_faithful|].
    split; [right; split; [reflexivity|]|].
    + rewrite length_app. cbn. f_equal. lia.
    + rewrite List.map_app, length_app, Nat.add_1_r, ids_from_snoc, Hids.
      cbn. f_equal. f_equal. lia.
  - left. split; [reflexivity | exact Hinv].
Qed.

Lemma run_app (evs1 evs2 : list (world * event)) (st : app_state pk) :
  run pk (evs1 ++ evs2) st = run pk evs2 (run pk evs1 st).
Proof.
  revert st. induction evs1 as [|[w ev] evs1 IH]; intros st; cbn;
    [reflexivity | apply IH].
Qed.

Lemma run_blogs_inv (evs : list (world * event)) :
  forall (X new : list Blog.t) (st : app_state pk),
    blogs_inv pk X new st ->
    exists more,
      blogs_inv pk X (new ++ more) (run pk evs st)
      /\ length more = length (List.filter is_published (trace pk evs st)).
Proof using pk_faithful.
  induction evs as [|[w ev] evs IH]; intros X new st Hinv; cbn.
  - exists []. rewrite app_nil_r. split; [exact Hinv | reflexivity].
  - destruct (script_blogs_step X new st w ev Hinv) as [(E & H)|(E & b & H)];
      rewrite E.
    + exact (IH X new _ H).
    + destruct (IH X (new ++ [b]) _ H) as (more & Hm & Hl).
      exists (b :: more). rewrite <- app_assoc in Hm.
      split; [exact Hm | cbn; congruence].
Qed.

Lemma run_summaries_inv (evs : list (world * event)) :
  forall (Y new : list Summary.t) (st : app_state pk),
    summaries_inv pk Y new st ->
    exists more,
      summaries_inv pk Y (new ++ more) (run pk evs st)
      /\ length more = length (List.filter is_generated (trace pk evs st)).
Proof using pk_faithful.
  induction evs as [|[w ev] evs IH]; intros Y new st Hinv; cbn.
  - exists []. rewrite app_nil_r. split; [exact Hinv | reflexivity].
  - destruct (script_summaries_step Y new st w ev Hinv)
      as [(E & H)|(E & o & H)]; rewrite E.
    + exact (IH Y new _ H).
    + destruct (IH Y (new ++ [o]) _ H) as (more & Hm & Hl).
      exists (o :: more). rewrite <- app_assoc in Hm.
      split; [exact Hm | cbn; congruence].
Qed.

Lemma start_blogs_inv (fs : gmap string (file_data pk)) (X : list Blog.t) :
  load_blogs pk fs = Ok X -> blogs_inv pk X [] (start pk fs).
Proof.
  intros H. unfold blogs_inv, start. cbn. rewrite app_nil_r.
  split; [exact H|]. split; [left; auto|]. split; [reflexivity|constructor].
Qed.

Lemma start_summaries_inv (fs : gmap string (file_data pk))
    (Y : list Summary.t) :
  load_summaries pk fs = Ok Y -> summaries_inv pk Y [] (start pk fs).
Proof.
  intros H. unfold summaries_inv, start. cbn. rewrite app_nil_r.
  split; [exact H|]. split; [left; auto | reflexivity].
Qed.

End Runs.

Lemma ids_from_nth (first : Z) (n i : nat) :
  (i < n)%nat -> nth_error (ids_from first n) i = Some (first + Z.of_nat i).
Proof.
  induction n as [|n IH]; intros Hi; [lia|].
  rewrite ids_from_snoc.
  assert (Hlen : length (ids_from first n) = n)
    by (unfold ids_from; rewrite length_map, length_seq; reflexivity).
  destruct (Nat.eq_dec i n) as [->|Hne].
  - rewrite nth_error_app2, Hlen, Nat.sub_diag by lia. reflexivity.
  - rewrite nth_error_app1 by lia. apply IH. lia.
Qed.

Lemma ids_of_nth {A} (f : A -> Z) (l : list A) (first : Z) :
  List.map f l = ids_from first (length l) ->
  forall i a, nth_error l i = Some a -> f a = first + Z.of_nat i.
Proof.
  intros H i a Ha.
  assert (Hi : (i < length l)%nat) by (apply nth_error_Some; congruence).
  pose proof (ids_from_nth first (length l) i Hi) as Hn.
  rewrite <- H in Hn. rewrite (map_nth_error f i l Ha) in Hn. congruence.
Qed.




(** ** Ratings of the stored blogs *)

(** Whatever the model answers, the rating is clamped: 9 gives 5, -3
    gives 1, 0 falls back to the heuristic. *)
Example rate_blog_out_of_range :
  rate_blog (sample_world (Ok (lit "9")) (PyNum.Finite 0) no_news) sample_content
  = Ok 5
  /\ rate_blog (sample_world (Ok (lit "-3")) (PyNum.Finite 0) no_news) sample_content
     = Ok 1
  /\ rate_blog (sample_world (Ok (lit "0")) (PyNum.Finite 0) no_news) sample_content
     = Ok 3.
Proof. vm_compute. repeat split; reflexivity. Qed.

(** An answer of 400 digits makes the division overflow: [rate_blog]
    raises and nothing is published. *)
Example rate_blog_overflow :
  let w := sample_world (Ok (List.repeat 57%N 400)) (PyNum.Finite 0) no_news in
  (exists e, rate_blog w sample_content = Raise OverflowError e)
  /\ snd (script sample_pickle w
             (PublishBlog (lit "asha") (lit "Rates") sample_content [])
             (start sample_pickle ∅))
     = {| session := {| blogs := Some []; blog_counter := Some 1;
                        summaries := Some []; summary_counter := Some 1 |};
          disk := ∅ |}.
Proof. vm_compute. split; [eexists|]; reflexivity. Qed.

(** C5. In every session, over any sequence of runs and whatever the
    model answers in each, the blogs created have a rating in [1,5]; the
    records found and created earlier stay as they are, new ones being
    appended; and the file holds the same list as the session. *)
Theorem blog_ratings_valid :
  forall (pk : pickle),
    pickle_faithful pk ->
    forall (fs : gmap string (file_data pk)) (X : list Blog.t)
           (evs1 evs2 : list (world * event)),
      load_blogs pk fs = Ok X ->
      exists new1 new2,
        let st1 := run pk evs1 (start pk fs) in
        let st2 := run pk (evs1 ++ evs2) (start pk fs) in
        Forall valid_rating (new1 ++ new2)
        /\ (Forall valid_rating X -> Forall valid_rating (X ++ new1 ++ new2))
        /\ load_blogs pk (disk st1) = Ok (X ++ new1)
        /\ load_blogs pk (disk st2) = Ok (X ++ new1 ++ new2)
        /\ (blogs (session st1) = Some (X ++ new1)
            \/ blogs (session st1) = None /\ new1 = [])
        /\ (blogs (session st2) = Some (X ++ new1 ++ new2)
            \/ blogs (session st2) = None /\ new1 ++ new2 = [])
        /\ (forall w content r, rate_blog w content = Ok r -> 1 <= r <= 5).
Proof.
  intros pk Hpk fs X evs1 evs2 HX.
  destruct (run_blogs_inv pk Hpk evs1 X [] _ (start_blogs_inv pk fs X HX))
    as (new1 & H1 & _).
  destruct (run_blogs_inv pk Hpk evs2 X _ _ H1) as (new2 & H2 & _).
  cbn [app] in H1, H2. rewrite <- run_app in H2.
  exists new1, new2. cbv zeta.
  destruct H1 as (D1 & S1 & _ & _), H2 as (D2 & S2 & _ & V2).
  split; [exact V2|].
  split; [intros VX; apply Forall_app; split; assumption|].
  split; [exact D1|]. split; [exact D2|].
  split; [destruct S1 as [(? & _ & ?)|(? & _)]; auto|].
  split; [destruct S2 as [(? & _ & ?)|(? & _)]; auto|].
  exact rate_blog_range.
Qed.

Lemma blog_ratings_valid_sample :
  exists new,
    blogs (session (run sample_pickle sample_events (start sample_pickle ∅)))
    = Some new
    /\ Forall valid_rating new.
Proof.
  assert (HX : load_blogs sample_pickle ∅ = Ok []) by reflexivity.
  destruct (blog_ratings_valid sample_pickle
              (conj (fun bs => eq_refl) (fun ss => eq_refl))
              ∅ [] sample_events [] HX)
    as (new1 & new2 & V & _ & _ & _ & _ & S & _).
  exists (new1 ++ new2). split; [|exact V].
  destruct S as [S|[S _]]; [exact S | vm_compute in S; discriminate S].
Defined.

(** ** Record identifiers *)

(** C6. In a session that found [X] blogs and [Y] summaries in storage,
    the records created by a sequence of runs get the identifiers
    [length X + 1], [length X + 2], ... in the order of creation (and
    likewise from [length Y + 1] for summaries), one per run that reports
    a creation, and the counter ends one above the last identifier. *)
Theorem record_identifiers_contiguous :
  forall (pk : pickle),
    pickle_faithful pk ->
    forall (fs : gmap string (file_data pk)) (X : list Blog.t)
           (Y : list Summary.t) (evs : list (world * event)),
      load_blogs pk fs = Ok X ->
      load_summaries pk fs = Ok Y ->
      let st := run pk evs (start pk fs) in
      let N := length (List.filter is_published (trace pk evs (start pk fs))) in
      let M := length (List.filter is_generated (trace pk evs (start pk fs))) in
      exists newb news,
        length newb = N /\ length news = M
        /\ (forall i b, nth_error newb i = Some b ->
                        Blog.id b = Z.of_nat (length X) + 1 + Z.of_nat i)
        /\ (forall i o, nth_error news i = Some o ->
                        Summary.id o = Z.of_nat (length Y) + 1 + Z.of_nat i)
        /\ (blogs (session st) = Some (X ++ newb)
            /\ blog_counter (session st)
               = Some (Z.of_nat (length X) + Z.of_nat N + 1)
            \/ blogs (session st) = None
               /\ blog_counter (session st) = None /\ newb = [])
        /\ (summaries (session st) = Some (Y ++ news)
            /\ summary_counter (session st)
               = Some (Z.of_nat (length Y) + Z.of_nat M + 1)
            \/ summaries (session st) = None
               /\ summary_counter (session st) = None /\ news = []).
Proof.
  intros pk Hpk fs X Y evs HX HY st N M.
  destruct (run_blogs_inv pk Hpk evs X [] _ (start_blogs_inv pk fs X HX))
    as (newb & (_ & Sb & Ib & _) & Lb).
  destruct (run_summaries_inv pk Hpk evs Y [] _ (start_summaries_inv pk fs Y HY))
    as (news & (_ & Ss & Is) & Ls).
  cbn [app] in *. fold st in Sb, Ss. fold N in Lb. fold M in Ls.
  exists newb, news.
  split; [exact Lb|]. split; [exact Ls|].
  split; [exact (ids_of_nth Blog.id newb _ Ib)|].
  split; [exact (ids_of_nth Summary.id news _ Is)|].
  rewrite <- Lb, <- Ls. split.
  - destruct Sb as [(? & ? & ?)|(? & ?)]; auto.
  - destruct Ss as [(? & ? & ?)|(? & ?)]; auto.
Qed.

Lemma record_identifiers_sample :
  exists newb,
    length newb = 2%nat
    /\ (forall i b, nth_error newb i = Some b -> Blog.id b = 0 + 1 + Z.of_nat i).
Proof.
  assert (HX : load_blogs sample_pickle ∅ = Ok []) by reflexivity.
  assert (HY : load_summaries sample_pickle ∅ = Ok []) by reflexivity.
  destruct (record_identifiers_contiguous sample_pickle
              (conj (fun bs => eq_refl) (fun ss => eq_refl))
              ∅ [] [] sample_events HX HY)
    as (newb & news & Lb & _ & Ib & _).
  exists newb. split; [vm_compute in Lb; exact Lb | exact Ib].
Defined.

(** ** Validation of the forms *)

(** C8. A blog submission with a text under 50 characters, or with an
    empty username, title or text, and a summary request with a text
    under 100 characters, report the rejection and leave the state (the
    lists of the session, the counters and the files) as it was; a whole
    run with such a submission ends in the state a run without
    submission ends in. *)
Theorem creation_rejects_invalid_input :
  forall (pk : pickle) (w : world) (st : app_state pk),
    (forall user_name title content tag,
        (length content < 50)%nat \/ user_name = [] \/ title = [] \/ content = [] ->
        (publish_blog pk w user_name title content tag st
         = (Ok BlogMissingFields, st)
         \/ publish_blog pk w user_name title content tag st
            = (Ok BlogTooShort, st))
        /\ snd (script pk w (PublishBlog user_name title content tag) st)
           = snd (script pk w Browse st))
    /\ (forall doc_title ty doc_content,
          (length doc_content < 100)%nat ->
          (generate_summary pk w doc_title ty doc_content st
           = (Ok SummaryNoContent, st)
           \/ generate_summary pk w doc_title ty doc_content st
              = (Ok SummaryTooShort, st))
          /\ snd (script pk w (GenerateSummary doc_title ty doc_content) st)
             = snd (script pk w Browse st)).
Proof.
  intros pk w st.
  assert (run_same : forall ev,
             (forall st1, exists o, match ev with
                          | PublishBlog u t c g => publish_blog pk w u t c g st1
                          | GenerateSummary d ty c => generate_summary pk w d ty c st1
                          | Browse => (Ok NothingSubmitted, st1)
                          end = (Ok o, st1)) ->
             snd (script pk w ev st) = snd (script pk w Browse st)).
  { intros ev H. rewrite !script_unfold.
    destruct (initialize pk st) as [[[]|c e] st1]; [|reflexivity].
    destruct (H st1) as (o & ->). reflexivity. }
  split.
  - intros user_name title content tag H.
    assert (R : forall st1,
               publish_blog pk w user_name title content tag st1
               = (Ok BlogMissingFields, st1)
               \/ publish_blog pk w user_name title content tag st1
                  = (Ok BlogTooShort, st1)).
    { intros st1. unfold publish_blog, ret.
      destruct (negb (truthy user_name) || negb (truthy title)
                || negb (truthy content)) eqn:E; [left; reflexivity|].
      right.
      destruct H as [H|[->|[->| ->]]]; try (cbn in E; discriminate E);
        try (rewrite orb_true_r in E; discriminate E).
      apply Nat.ltb_lt in H. rewrite H. reflexivity. }
    split; [apply R|].
    apply (run_same (PublishBlog user_name title content tag)).
    intros st1. destruct (R st1) as [->| ->]; eauto.
  - intros doc_title ty doc_content H.
    assert (R : forall st1,
               generate_summary pk w doc_title ty doc_content st1
               = (Ok SummaryNoContent, st1)
               \/ generate_summary pk w doc_title ty doc_content st1
                  = (Ok SummaryTooShort, st1)).
    { intros st1. unfold generate_summary, ret.
      destruct (negb (truthy (strip doc_content))); [left; reflexivity|].
      right.
      assert (L : (length (strip doc_content) <? 100)%nat = true).
      { apply Nat.ltb_lt. pose proof (strip_by_length isspace doc_content).
        unfold strip. lia. }
      rewrite L. reflexivity. }
    split; [apply R|].
    apply (run_same (GenerateSummary doc_title ty doc_content)).
    intros st1. destruct (R st1) as [->| ->]; eauto.
Qed.

(** The second run of the sample session is rejected and changes
    nothing. *)
Example short_blog_rejected :
  let st := run sample_pickle (firstn 1 sample_events) (start sample_pickle ∅) in
  run sample_pickle (firstn 2 sample_events) (start sample_pickle ∅) = st
  /\ List.map is_published (trace sample_pickle sample_events (start sample_pickle ∅))
     = [true; false; true].
Proof. vm_compute. split; reflexivity. Qed.


(** * Further properties *)

(** ** Alert lines and their records *)

Lemma em_dash_not_blank (line : str) :
  In em_dash line -> forallb isspace line = false.
Proof.
  intros H. destruct (forallb isspace line) eqn:E; [|reflexivity].
  rewrite forallb_forall in E. specialize (E _ H). discriminate E.
Qed.

Lemma em_dashes_In (line : str) : (0 < em_dashes line)%nat -> In em_dash line.
Proof.
  unfold em_dashes. intros H.
  destruct (List.filter (N.eqb em_dash) line) as [|c r] eqn:E; [simpl in H; lia|].
  assert (Hc : In c (List.filter (N.eqb em_dash) line)) by (rewrite E; left; reflexivity).
  apply filter_In in Hc as [Hc Hd]. apply N.eqb_eq in Hd. subst c. exact Hc.
Qed.

Lemma parse_alert_line_segments (line : str) :
  In em_dash line ->
  parse_alert_line line
  = match split em_dash line with
    | s0 :: s1 :: s2 :: s3 :: _ =>
        Some {| headline := strip_chars alert_strip_chars s0;
                stock := strip_chars alert_strip_chars s1;
                impact := strip_chars alert_strip_chars s2;
                summary := strip_chars alert_strip_chars s3 |}
    | _ => None
    end.
Proof.
  intros H. unfold parse_alert_line.
  rewrite truthy_strip, (em_dash_not_blank line H).
  apply mem_In in H. rewrite H. cbn [negb orb].
  destruct (split em_dash line) as [|s0 [|s1 [|s2 [|s3 rest]]]]; reflexivity.
Qed.

Lemma parse_alert_line_some (line : str) :
  (exists a, parse_alert_line line = Some a) <-> (3 <= em_dashes line)%nat.
Proof.
  split.
  - intros (a & H).
    assert (Hd : In em_dash line).
    { unfold parse_alert_line in H.
      destruct (mem em_dash line) eqn:E; [apply mem_In; exact E|].
      rewrite orb_true_r in H. discriminate H. }
    rewrite (parse_alert_line_segments line Hd) in H.
    pose proof (split_length em_dash line) as L. fold (em_dashes line) in L.
    destruct (split em_dash line) as [|s0 [|s1 [|s2 [|s3 rest]]]];
      try discriminate H. simpl in L. lia.
  - intros H.
    assert (Hd : In em_dash line) by (apply em_dashes_In; lia).
    rewrite (parse_alert_line_segments line Hd).
    pose proof (split_length em_dash line) as L. fold (em_dashes line) in L.
    destruct (split em_dash line) as [|s0 [|s1 [|s2 [|s3 rest]]]];
      simpl in L; try lia. eauto.
Qed.

Lemma parse_alerts_count (lines : list str) :
  length (parse_alerts lines)
  = length (List.filter (fun line => 3 <=? em_dashes line)%nat lines).
Proof.
  induction lines as [|line lines IH]; [reflexivity|].
  cbn [parse_alerts List.filter].
  pose proof (parse_alert_line_some line) as [H1 H2].
  destruct (parse_alert_line line) as [a|] eqn:E.
  - replace (3 <=? em_dashes line)%nat with true
      by (symmetry; apply Nat.leb_le, H1; eauto).
    cbn [length]. f_equal. exact IH.
  - destruct (3 <=? em_dashes line)%nat eqn:E3; [|exact IH].
    apply Nat.leb_le, H2 in E3 as (a & Ha). discriminate Ha.
Qed.

(** X1. A line gives a record exactly when it holds at least three em
    dashes (a line with an em dash is never blank); so the records are as
    many as such lines, and never more than the lines. *)
Theorem alert_record_iff_three_dashes :
  (forall line,
      (exists a, parse_alert_line line = Some a) <-> (3 <= em_dashes line)%nat)
  /\ (forall lines,
        length (parse_alerts lines)
        = length (List.filter (fun line => 3 <=? em_dashes line)%nat lines))
  /\ (forall lines, (length (parse_alerts lines) <= length lines)%nat).
Proof.
  split; [exact parse_alert_line_some|].
  split; [exact parse_alerts_count|].
  intros lines. rewrite parse_alerts_count. apply List.filter_length_le.
Qed.

Lemma strip_chars_sub (chars seg : str) (c : char) :
  In c (strip_chars chars seg) -> In c seg.
Proof.
  unfold strip_chars. intros H.
  destruct (strip_by_spec (fun c => mem c chars) seg) as (pre & post & Hs & _).
  rewrite Hs. apply in_or_app. right. apply in_or_app. left. exact H.
Qed.

Lemma clean_strip_chars (seg : str) :
  ~ In em_dash seg -> clean_field (strip_chars alert_strip_chars seg).
Proof.
  intros Hn. split; [intros H; exact (Hn (strip_chars_sub _ _ _ H))|].
  unfold strip_chars.
  destruct (strip_by_spec (fun c => mem c alert_strip_chars) seg)
    as (pre & post & _ & _ & _ & Hhd & Hlast).
  split.
  - intros c r E Hc. rewrite E in Hhd. cbv beta in Hhd.
    apply alert_strippable_mem in Hc. congruence.
  - intros c r E Hc. rewrite E, rev_app_distr in Hlast.
    cbn [rev app] in Hlast. cbv beta in Hlast.
    apply alert_strippable_mem in Hc. congruence.
Qed.

Lemma parse_alerts_In (lines : list str) (a : AlertRecord) :
  In a (parse_alerts lines) ->
  exists line, In line lines /\ parse_alert_line line = Some a.
Proof.
  induction lines as [|line lines IH]; cbn [parse_alerts]; [intros []|].
  destruct (parse_alert_line line) as [b|] eqn:E.
  - intros [<-|H].
    + exists line. split; [left; reflexivity | exact E].
    + destruct (IH H) as (l & Hl & Hp). exists l. split; [right; exact Hl | exact Hp].
  - intros H. destruct (IH H) as (l & Hl & Hp).
    exists l. split; [right; exact Hl | exact Hp].
Qed.

(** X2. Every record comes from one of the lines, and each of its four
    fields holds no em dash and neither starts nor ends with a space, a
    hyphen or an asterisk. *)
Theorem alert_fields_clean :
  forall (lines : list str) (a : AlertRecord),
    In a (parse_alerts lines) ->
    (exists line, In line lines /\ parse_alert_line line = Some a)
    /\ clean_field (headline a) /\ clean_field (stock a)
    /\ clean_field (impact a) /\ clean_field (summary a).
Proof.
  intros lines a Ha.
  destruct (parse_alerts_In lines a Ha) as (line & Hl & Hp).
  split; [exists line; split; assumption|].
  assert (Hd : In em_dash line).
  { unfold parse_alert_line in Hp.
    destruct (mem em_dash line) eqn:E; [apply mem_In; exact E|].
    rewrite orb_true_r in Hp. discriminate Hp. }
  rewrite (parse_alert_line_segments line Hd) in Hp.
  pose proof (split_no_sep em_dash line) as Hs.
  destruct (split em_dash line) as [|s0 [|s1 [|s2 [|s3 rest]]]];
    try discriminate Hp.
  injection Hp as <-. cbn [headline stock impact summary].
  inversion Hs as [|? ? H0 Hs1]; subst.
  inversion Hs1 as [|? ? H1 Hs2]; subst.
  inversion Hs2 as [|? ? H2 Hs3]; subst.
  inversion Hs3 as [|? ? H3 _]; subst.
  repeat split; apply clean_strip_chars; assumption.
Qed.

Lemma alert_fields_clean_sample :
  clean_field (lit "Fed raises rates") /\ clean_field (lit "Banking").
Proof.
  destruct (alert_fields_clean
              [lit "-- Fed raises rates — *Banking* — Negative — Higher rates"]
              {| headline := lit "Fed raises rates"; stock := lit "Banking";
                 impact := lit "Negative"; summary := lit "Higher rates" |}
              (or_introl eq_refl))
    as (_ & H1 & H2 & _).
  split; [exact H1 | exact H2].
Defined.

(** ** From the model's reply to the alerts page *)

Lemma get_stock_alerts_cases (w : world) (news : list str) :
  get_stock_alerts w news
  = Ok match news with
       | [] => []
       | _ => match generate_content w (alerts_prompt news) with
              | Ok text => split newline (strip text)
              | Raise _ _ => []
              end
       end.
Proof.
  unfold get_stock_alerts, try_except. destruct news as [|h news]; [reflexivity|].
  destruct (generate_content w (alerts_prompt (h :: news))); reflexivity.
Qed.

(** X3. [get_stock_alerts] never raises; it returns no line for an empty
    list of headlines and when the model call fails; otherwise it returns
    at least one line, the lines hold no newline, and joined by newlines
    they are the trimmed reply. *)
Theorem stock_alert_lines :
  forall (w : world) (news : list str),
    (exists lines, get_stock_alerts w news = Ok lines)
    /\ (news = [] -> get_stock_alerts w news = Ok [])
    /\ (forall c e, generate_content w (alerts_prompt news) = Raise c e ->
                    get_stock_alerts w news = Ok [])
    /\ (forall text,
          news <> [] -> generate_content w (alerts_prompt news) = Ok text ->
          exists lines,
            get_stock_alerts w news = Ok lines
            /\ lines <> []
            /\ join nl lines = strip text
            /\ Forall (fun line => ~ In newline line) lines).
Proof.
  intros w news. rewrite get_stock_alerts_cases.
  split; [eauto|]. split; [intros ->; reflexivity|]. split.
  - intros c e ->. destruct news; reflexivity.
  - intros text Hn ->. destruct news as [|h news]; [contradiction|].
    exists (split newline (strip text)). split; [reflexivity|].
    split; [apply split_nonempty|].
    split; [apply split_join | apply split_no_sep].
Qed.

Lemma fetch_news_total (w : world) : exists hs, fetch_news w = Ok hs.
Proof.
  rewrite fetch_news_unfold.
  match goal with |- exists hs, match ?b with _ => _ end = _ =>
    destruct b; eauto end.
Qed.

Lemma market_alerts_page_cases (w : world) (news : list str) :
  fetch_news w = Ok news ->
  market_alerts_page w
  = Ok match news with
       | [] => NewsUnavailable
       | _ =>
           match get_stock_alerts w news with
           | Ok alert_lines =>
               match parse_alerts alert_lines with
               | [] => NoAlerts
               | alerts =>
                   AlertsFound (length alerts)
                     (List.map (fun alert => (impact_class_of w alert, alert)) alerts)
               end
           | Raise _ _ => NoAlerts
           end
       end.
Proof.
  intros H. unfold market_alerts_page. rewrite H. cbn [bind].
  destruct news as [|h news]; [reflexivity|].
  rewrite get_stock_alerts_cases. cbn [bind].
  match goal with |- context [parse_alerts ?l] => destruct (parse_alerts l) end;
    reflexivity.
Qed.

(** X4. The alerts page never raises.  It reports the news as unavailable
    exactly when the fetch returns no headline.  With headlines, a failed
    model call shows "no alerts", as does a reply without a line of three
    em dashes; any other reply shows one card per such line, in the order
    of the reply. *)
Theorem market_alerts_page_total :
  forall (w : world),
    (exists v, market_alerts_page w = Ok v)
    /\ (market_alerts_page w = Ok NewsUnavailable <-> fetch_news w = Ok [])
    /\ (forall news,
          fetch_news w = Ok news -> news <> [] ->
          (forall c e, generate_content w (alerts_prompt news) = Raise c e ->
                       market_alerts_page w = Ok NoAlerts)
          /\ (forall text,
                generate_content w (alerts_prompt news) = Ok text ->
                let lines := split newline (strip text) in
                let n := length (List.filter
                                   (fun line => 3 <=? em_dashes line)%nat lines) in
                (n = 0%nat -> market_alerts_page w = Ok NoAlerts)
                /\ (n <> 0%nat ->
                    exists cards,
                      market_alerts_page w = Ok (AlertsFound n cards)
                      /\ List.map snd cards = parse_alerts lines
                      /\ length cards = n))).
Proof.
  intros w. destruct (fetch_news_total w) as (news & Hf).
  rewrite (market_alerts_page_cases w news Hf).
  split; [eauto|]. split.
  - rewrite Hf. split.
    + intros H. destruct news as [|h news]; [reflexivity|].
      rewrite get_stock_alerts_cases in H.
      match type of H with context [parse_alerts ?l] =>
        destruct (parse_alerts l) end; discriminate H.
    + intros [= ->]. reflexivity.
  - intros news' Hf' Hne. rewrite Hf in Hf'. injection Hf' as <-.
    destruct news as [|h news]; [contradiction|].
    rewrite get_stock_alerts_cases. split.
    + intros c e ->. reflexivity.
    + intros text ->. cbv zeta. rewrite <- parse_alerts_count.
      destruct (parse_alerts (split newline (strip text))) as [|a alerts].
      * split; [reflexivity | intros H; contradiction H; reflexivity].
      * split; [discriminate|]. intros _. eexists. split; [reflexivity|].
        split; [|apply length_map].
        rewrite List.map_map. cbn [snd]. apply List.map_id.
Qed.

(** ** Headlines of a well-formed reply *)

Lemma get_dict (d : list (str * Json.value)) (key : str) :
  Json.get (Json.Dict d) key Json.Null = Ok (field (Json.Dict d) key).
Proof. reflexivity. Qed.

Lemma headlines_dicts (w : world) (items : list Json.value) :
  forallb is_dict items = true ->
  headlines w items
  = Ok (List.map (headline_of w) (List.filter keeps_article items)).
Proof.
  induction items as [|article rest IH]; [reflexivity|].
  cbn [forallb]. intros H. apply andb_true_iff in H as [Ha Hr].
  destruct article as [| | | | |l|d]; try discriminate Ha.
  cbn [headlines List.filter]. rewrite !get_dict. cbn [bind].
  unfold keeps_article.
  destruct (Json.truthy (field (Json.Dict d) (lit "title"))) eqn:Tt;
    cbn [bind andb]; [|exact (IH Hr)].
  destruct (Json.truthy (field (Json.Dict d) (lit "description"))) eqn:Td;
    cbn [bind]; [|exact (IH Hr)].
  rewrite (get_truthy_getitem _ _ _ (get_dict d (lit "title")) Tt),
    (get_truthy_getitem _ _ _ (get_dict d (lit "description")) Td).
  cbn [bind]. rewrite (IH Hr). reflexivity.
Qed.

Lemma headlines_not_dicts (w : world) (items : list Json.value) :
  forallb is_dict items = false ->
  exists c e, headlines w items = Raise c e.
Proof.
  induction items as [|article rest IH]; [discriminate|].
  cbn [forallb]. intros H.
  destruct (is_dict article) eqn:Ha.
  - cbn [andb] in H. destruct (IH H) as (c & e & Hr).
    destruct article as [| | | | |l|d]; try discriminate Ha.
    cbn [headlines]. rewrite !get_dict. cbn [bind].
    destruct (Json.truthy (field (Json.Dict d) (lit "title"))) eqn:Tt;
      cbn [bind]; [|eauto].
    destruct (Json.truthy (field (Json.Dict d) (lit "description"))) eqn:Td;
      cbn [bind]; [|eauto].
    rewrite (get_truthy_getitem _ _ _ (get_dict d (lit "title")) Tt),
      (get_truthy_getitem _ _ _ (get_dict d (lit "description")) Td).
    cbn [bind]. rewrite Hr. cbn [bind]. eauto.
  - destruct article; try discriminate Ha; cbn [headlines Json.get bind]; eauto.
Qed.

Lemma fetch_news_well_formed (w : world) (r : response)
    (articles : list Json.value) :
  http_get w (news_url w) = Ok r ->
  well_formed_reply r articles ->
  fetch_news w
  = match headlines w articles with
    | Ok hs => Ok hs
    | Raise _ _ => Ok []
    end.
Proof.
  intros Hr (Hs & d & Hb & He & Ha).
  rewrite fetch_news_unfold, Hr. cbn [bind]. unfold raise_for_status.
  replace ((400 <=? status_code r) && (status_code r <? 600)) with false
    by (symmetry; apply andb_false_iff;
        destruct Hs; [left; apply Z.leb_gt | right; apply Z.ltb_ge]; lia).
  cbn [bind]. rewrite Hb. cbn [bind]. rewrite get_dict. cbn [bind].
  rewrite He. cbn [Json.get]. rewrite Ha. cbn [bind].
  destruct articles as [|a rest]; [reflexivity|]. reflexivity.
Qed.

(** X5. On a reply with a success status whose body is a dictionary with
    a list of dictionaries as articles, the fetch returns, in the order of
    the articles, one headline for each article whose title and
    description are both truthy, so never more headlines than articles. *)
Theorem news_headlines_in_order :
  forall (w : world) (r : response) (articles : list Json.value),
    http_get w (news_url w) = Ok r ->
    well_formed_reply r articles ->
    forallb is_dict articles = true ->
    fetch_news w
    = Ok (List.map (headline_of w) (List.filter keeps_article articles))
    /\ (forall hs, fetch_news w = Ok hs -> (length hs <= length articles)%nat).
Proof.
  intros w r articles Hr Hw Hd.
  rewrite (fetch_news_well_formed w r articles Hr Hw), (headlines_dicts w articles Hd).
  split; [reflexivity|]. intros hs [= <-].
  rewrite length_map. apply List.filter_length_le.
Qed.

Lemma news_headlines_in_order_sample :
  fetch_news (sample_world (Ok []) (PyNum.Finite 0) (Ok sample_news_reply))
  = Ok [lit "Fed raises rates. Banks gain"].
Proof.
  apply (news_headlines_in_order
           (sample_world (Ok []) (PyNum.Finite 0) (Ok sample_news_reply))
           sample_news_reply
           [Json.Dict [(lit "title", Json.Str (lit "Fed raises rates"));
                       (lit "description", Json.Str (lit "Banks gain"))];
            Json.Dict [(lit "title", Json.Str (lit "Oil falls"));
                       (lit "description", Json.Null)]]
           eq_refl).
  - split; [left; vm_compute; reflexivity|].
    eexists. repeat split; reflexivity.
  - reflexivity.
Defined.

(** X6. On such a reply, one entry of the articles that is not a
    dictionary makes the fetch return no headline at all, whatever the
    other articles are. *)
Theorem news_one_bad_article_discards_all :
  forall (w : world) (r : response) (articles : list Json.value),
    http_get w (news_url w) = Ok r ->
    well_formed_reply r articles ->
    forallb is_dict articles = false ->
    fetch_news w = Ok [].
Proof.
  intros w r articles Hr Hw Hd.
  rewrite (fetch_news_well_formed w r articles Hr Hw).
  destruct (headlines_not_dicts w articles Hd) as (c & e & ->). reflexivity.
Qed.

Lemma news_one_bad_article_sample :
  fetch_news (sample_world (Ok []) (PyNum.Finite 0) (Ok sample_news_broken))
  = Ok [].
Proof.
  apply (news_one_bad_article_discards_all
           (sample_world (Ok []) (PyNum.Finite 0) (Ok sample_news_broken))
           sample_news_broken
           [Json.Dict [(lit "title", Json.Str (lit "Fed raises rates"));
                       (lit "description", Json.Str (lit "Banks gain"))];
            Json.Null]
           eq_refl).
  - split; [left; vm_compute; reflexivity|].
    eexists. repeat split; reflexivity.
  - reflexivity.
Defined.

(** ** Model ratings outside the scale *)

Lemma round_half_even_ge (n : Z) (d : positive) (L : Z) :
  L * Z.pos d <= n -> L <= PyNum.round_half_even n d.
Proof.
  intros H. unfold PyNum.round_half_even.
  assert (Hk : L <= n / Z.pos d) by (apply Z.div_le_lower_bound; lia).
  destruct (2 * (n mod Z.pos d) ?= Z.pos d); [destruct (Z.even _)| |]; lia.
Qed.

Lemma round_half_even_nonpos (n : Z) (d : positive) :
  n <= 0 -> PyNum.round_half_even n d <= 0.
Proof.
  intros H. unfold PyNum.round_half_even.
  pose proof (Z.div_mod n (Z.pos d) ltac:(lia)) as E.
  pose proof (Z.mod_pos_bound n (Z.pos d) ltac:(lia)) as B.
  assert (Hk : n / Z.pos d <= 0) by (apply Z.div_le_upper_bound; lia).
  destruct (Z.compare_spec (2 * (n mod Z.pos d)) (Z.pos d)) as [C|C|C];
    [destruct (Z.even _)| |]; nia.
Qed.

(** A quotient whose binary exponent is at most 52 is rounded at a
    non-positive exponent: the result is [m / 2^t] for the nearest [m]. *)
Lemma binary64_of_small_ratio (n d : positive) :
  Z.log2 (Z.pos n) - Z.log2 (Z.pos d) <= 52 ->
  exists t, 0 <= t
    /\ PyNum.binary64_of_pos_ratio n d
       = Some (Qmake (PyNum.round_half_even (Z.pos n * 2 ^ t) d)
                     (Z.to_pos (2 ^ t))).
Proof.
  intros H. unfold PyNum.binary64_of_pos_ratio. cbv zeta.
  set (e0 := Z.log2 (Z.pos n) - Z.log2 (Z.pos d)) in *.
  set (e := if Z.pos d * 2 ^ Z.max e0 0 <=? Z.pos n * 2 ^ Z.max (- e0) 0
            then e0 else e0 - 1).
  assert (He : e <= 52) by (subst e; destruct (_ <=? _); lia).
  set (q := Z.max (e - 52) (-1074)).
  assert (Hq : q <= 0) by lia.
  replace (Z.max q 0) with 0 by lia.
  replace (Z.max (- q) 0) with (- q) by lia.
  replace (q <=? 0) with true by (symmetry; apply Z.leb_le; exact Hq).
  cbn [orb]. exists (- q). split; [lia|].
  rewrite Z.pow_0_r, !Z.mul_1_r. reflexivity.
Qed.

Lemma log2_ratio_small (p : positive) :
  Z.pos p < 36028797018963968 -> Z.log2 (Z.pos p) - Z.log2 (Z.pos 5) <= 52.
Proof.
  intros H. change 36028797018963968 with (2 ^ 55) in H.
  apply Z.log2_lt_pow2 in H; [|lia]. change (Z.log2 (Z.pos 5)) with 2. lia.
Qed.

Lemma pow2_to_pos (t : Z) : 0 <= t -> Z.pos (Z.to_pos (2 ^ t)) = 2 ^ t.
Proof. intros H. apply Z2Pos.id. apply Z.pow_pos_nonneg; lia. Qed.

Lemma weighted_high (a : Z) :
  25 <= a < 36028797018963968 ->
  (let* quotient := PyNum.true_div a 5 in
   let* final := PyNum.round quotient in
   Ok (Z.max 1 (Z.min 5 final)))
  = Ok 5.
Proof.
  intros [Hlo Hhi]. unfold PyNum.true_div. cbn [Z.sgn].
  change (Z.to_pos (Z.abs 5)) with 5%positive.
  rewrite Z.mul_1_r. destruct a as [|p|p]; try lia.
  cbn [PyNum.binary64_of_ratio].
  destruct (binary64_of_small_ratio p 5 (log2_ratio_small p Hhi))
    as (t & Ht & ->).
  cbn [bind PyNum.round Qnum Qden]. f_equal.
  pose proof (Z.pow_pos_nonneg 2 t ltac:(lia) Ht) as Hp.
  assert (Hm : 5 * 2 ^ t <= PyNum.round_half_even (Z.pos p * 2 ^ t) 5)
    by (apply round_half_even_ge; nia).
  assert (5 <= PyNum.round_half_even
                 (PyNum.round_half_even (Z.pos p * 2 ^ t) 5)
                 (Z.to_pos (2 ^ t)))
    by (apply round_half_even_ge; rewrite pow2_to_pos by exact Ht; lia).
  lia.
Qed.

Lemma weighted_low (a : Z) :
  -36028797018963968 < a <= 1 ->
  (let* quotient := PyNum.true_div a 5 in
   let* final := PyNum.round quotient in
   Ok (Z.max 1 (Z.min 5 final)))
  = Ok 1.
Proof.
  intros [Hlo Hhi]. destruct a as [|p|p].
  - vm_compute. reflexivity.
  - assert (p = 1%positive) as -> by lia. vm_compute. reflexivity.
  - unfold PyNum.true_div. cbn [Z.sgn].
    change (Z.to_pos (Z.abs 5)) with 5%positive. rewrite Z.mul_1_r.
    cbn [PyNum.binary64_of_ratio].
    assert (Hp : Z.pos p < 36028797018963968) by lia.
    destruct (binary64_of_small_ratio p 5 (log2_ratio_small p Hp))
      as (t & Ht & ->).
    cbn [option_map Qopp bind PyNum.round Qnum Qden]. f_equal.
    pose proof (Z.pow_pos_nonneg 2 t ltac:(lia) Ht) as H2.
    assert (Hm : 0 <= PyNum.round_half_even (Z.pos p * 2 ^ t) 5)
      by (apply round_half_even_ge; nia).
    assert (PyNum.round_half_even
              (- PyNum.round_half_even (Z.pos p * 2 ^ t) 5)
              (Z.to_pos (2 ^ t)) <= 0)
      by (apply round_half_even_nonpos; lia).
    lia.
Qed.

Lemma rate_blog_raises_overflow_only (w : world) (content : str) c e :
  rate_blog w content = Raise c e -> c = OverflowError.
Proof.
  unfold rate_blog.
  destruct (rate_with_gemini_total w content) as [g ->]. cbn [bind].
  destruct g as [g|]; [|discriminate].
  destruct (rating_truthy (Some g)); [|discriminate].
  unfold PyNum.true_div.
  destruct (PyNum.binary64_of_ratio _ _) as [q|]; cbn [bind PyNum.round];
    [discriminate | intros [= <- _]; reflexivity].
Qed.

(** X7. A model rating above the scale gives the final rating 5 and one
    below zero gives 1, for every rating up to 2^52 in size; and the only
    exception [rate_blog] can raise is the overflow of the division. *)
Theorem rating_outside_scale :
  forall (w : world) (content : str),
    (forall g, rate_with_gemini w content = Ok (Some g) ->
               6 <= g <= 4503599627370496 ->
               rate_blog w content = Ok 5)
    /\ (forall g, rate_with_gemini w content = Ok (Some g) ->
                  -4503599627370496 <= g <= -1 ->
                  rate_blog w content = Ok 1)
    /\ (forall c e, rate_blog w content = Raise c e -> c = OverflowError).
Proof.
  intros w content.
  pose proof (polarity_rating_range (sentiment_polarity w content)) as Hb.
  fold (rate_with_textblob w content) in Hb.
  split; [|split; [|apply rate_blog_raises_overflow_only]].
  - intros g Hg Hr. unfold rate_blog. rewrite Hg. cbn [bind rating_truthy].
    replace (negb (g =? 0)) with true
      by (symmetry; apply negb_true_iff, Z.eqb_neq; lia).
    apply weighted_high. lia.
  - intros g Hg Hr. unfold rate_blog. rewrite Hg. cbn [bind rating_truthy].
    replace (negb (g =? 0)) with true
      by (symmetry; apply negb_true_iff, Z.eqb_neq; lia).
    apply weighted_low. lia.
Qed.

(** ** Trimming *)

Section Trim.

Variable f : char -> bool.

Lemma lstrip_by_app (pre s : str) :
  forallb f pre = true -> lstrip_by f (pre ++ s) = lstrip_by f s.
Proof.
  induction pre as [|c pre IH]; cbn [forallb app lstrip_by]; [reflexivity|].
  intros H. apply andb_true_iff in H as [-> H]. exact (IH H).
Qed.

Lemma lstrip_by_head (s : str) :
  match s with c :: _ => f c = false | [] => True end -> lstrip_by f s = s.
Proof. destruct s as [|c r]; cbn [lstrip_by]; [reflexivity | intros ->; reflexivity]. Qed.

(** Trimming removes exactly the trimmable characters around a text that
    neither starts nor ends with one. *)
Lemma strip_by_sandwich (pre mid post : str) :
  forallb f pre = true -> forallb f post = true ->
  match mid with c :: _ => f c = false | [] => False end ->
  match rev mid with c :: _ => f c = false | [] => False end ->
  strip_by f (pre ++ mid ++ post) = mid.
Proof.
  intros Hpre Hpost Hhd Hlast. unfold strip_by, rstrip_by.
  rewrite (lstrip_by_app pre _ Hpre).
  rewrite (lstrip_by_head (mid ++ post))
    by (destruct mid; [contradiction | exact Hhd]).
  rewrite rev_app_distr, lstrip_by_app by (rewrite forallb_rev; exact Hpost).
  rewrite lstrip_by_head by (destruct (rev mid); [contradiction | exact Hlast]).
  apply rev_involutive.
Qed.

Lemma strip_by_idempotent (s : str) :
  strip_by f (strip_by f s) = strip_by f s.
Proof.
  destruct (strip_by_spec f s) as (pre & post & _ & _ & _ & Hhd & Hlast).
  destruct (strip_by f s) as [|c r] eqn:E; [reflexivity|].
  rewrite <- (app_nil_r (c :: r)) at 1.
  apply (strip_by_sandwich [] (c :: r) []); try reflexivity; [exact Hhd|].
  destruct (rev (c :: r)) as [|d t] eqn:Er; [|exact Hlast].
  apply (f_equal (@length char)) in Er. rewrite length_rev in Er. discriminate Er.
Qed.

End Trim.

(** ** Replies of the model *)

(** X8. A reply that is one decimal digit, with any whitespace before and
    after it, is read as that digit. *)
Theorem model_reply_digit_accepted :
  forall (w : world) (content pre post : str) (d : Z),
    0 <= d <= 9 ->
    forallb isspace pre = true -> forallb isspace post = true ->
    generate_content w (rating_prompt content)
    = Ok (pre ++ [Z.to_N (48 + d)] ++ post) ->
    rate_with_gemini w content = Ok (Some d).
Proof.
  intros w content pre post d Hd Hpre Hpost Hg.
  rewrite rate_with_gemini_cases, Hg. unfold strip.
  assert (E : d = 0 \/ d = 1 \/ d = 2 \/ d = 3 \/ d = 4 \/ d = 5
              \/ d = 6 \/ d = 7 \/ d = 8 \/ d = 9) by lia.
  pose proof (strip_by_sandwich isspace pre [Z.to_N (48 + d)] post Hpre Hpost)
    as S.
  unfold char in *. rewrite S; decompose [or] E; subst d; reflexivity.
Qed.

Lemma model_reply_digit_accepted_sample :
  rate_with_gemini (replying_world ([space] ++ [Z.to_N (48 + 4)] ++ [newline]))
                   sample_content
  = Ok (Some 4).
Proof.
  apply (model_reply_digit_accepted
           (replying_world ([space] ++ [Z.to_N (48 + 4)] ++ [newline]))
           sample_content [space] [newline] 4);
    [lia | reflexivity | reflexivity | reflexivity].
Defined.

Lemma summarize_document_cases (w : world) (content doc_type : str) :
  summarize_document w content doc_type
  = Ok match generate_content w (summary_prompt content doc_type) with
       | Ok text => strip text
       | Raise _ e => lit "Error generating summary: " ++ e
       end.
Proof.
  unfold summarize_document, try_except.
  destruct (generate_content w (summary_prompt content doc_type)); reflexivity.
Qed.

(** X9. [summarize_document] never raises.  When the model replies it
    returns the reply trimmed, a text that trimming leaves as it is; when
    the call fails it returns the message of the exception after the
    words "Error generating summary: ". *)
Theorem summarize_document_total :
  forall (w : world) (content doc_type : str),
    (exists text, summarize_document w content doc_type = Ok text)
    /\ (forall reply,
          generate_content w (summary_prompt content doc_type) = Ok reply ->
          summarize_document w content doc_type = Ok (strip reply)
          /\ strip (strip reply) = strip reply)
    /\ (forall c e,
          generate_content w (summary_prompt content doc_type) = Raise c e ->
          summarize_document w content doc_type
          = Ok (lit "Error generating summary: " ++ e)).
Proof.
  intros w content doc_type. rewrite summarize_document_cases.
  split; [eauto|]. split.
  - intros reply ->. split; [reflexivity | apply strip_by_idempotent].
  - intros c e ->. reflexivity.
Qed.

(** X10. The caller cannot tell a failure from a reply: a failed call
    with the message [e] and a reply made of "Error generating summary: "
    and [e] give the same summary, for every message that does not end in
    whitespace. *)
Theorem summary_failure_looks_like_reply :
  forall (w1 w2 : world) (content doc_type e : str) (c : exn_class),
    e <> [] ->
    (forall r x, e = r ++ [x] -> isspace x = false) ->
    generate_content w1 (summary_prompt content doc_type) = Raise c e ->
    generate_content w2 (summary_prompt content doc_type)
    = Ok (lit "Error generating summary: " ++ e) ->
    summarize_document w1 content doc_type
    = summarize_document w2 content doc_type.
Proof.
  intros w1 w2 content doc_type e c Hne Hlast H1 H2.
  rewrite !summarize_document_cases, H1, H2. f_equal. unfold strip.
  assert (Hp : exists c0 r, lit "Error generating summary: " = c0 :: r
                            /\ isspace c0 = false)
    by (vm_compute; eauto).
  destruct Hp as (c0 & r & -> & Hc0).
  pose proof (strip_by_sandwich isspace [] ((c0 :: r) ++ e) [] eq_refl eq_refl)
    as S.
  rewrite app_nil_r in S. cbn [app] in S |- *. symmetry. apply S; [exact Hc0|].
  destruct (rev e) as [|x t] eqn:Er.
  - apply (f_equal (@rev char)) in Er. rewrite rev_involutive in Er.
    contradiction.
  - change (c0 :: r ++ e) with ((c0 :: r) ++ e). rewrite rev_app_distr, Er.
    cbn [app]. apply (Hlast (rev t) x).
    rewrite <- (rev_involutive e), Er. reflexivity.
Qed.

Lemma summary_failure_looks_like_reply_sample :
  summarize_document (failing_world (lit "quota exceeded")) sample_content (lit "general")
  = summarize_document
      (replying_world (lit "Error generating summary: quota exceeded"))
      sample_content (lit "general").
Proof.
  apply (summary_failure_looks_like_reply
           (failing_world (lit "quota exceeded"))
           (replying_world (lit "Error generating summary: quota exceeded"))
           sample_content (lit "general") (lit "quota exceeded") OtherException).
  - discriminate.
  - intros r x E. apply (f_equal (@rev char)) in E.
    rewrite rev_app_distr in E. vm_compute in E.
    injection E as <- _. reflexivity.
  - reflexivity.
  - reflexivity.
Defined.

(** ** What a submission stores *)

(** X11. In a loaded session a summary request with at least 100
    characters after trimming always stores exactly one record, also when
    the model call fails: the record takes the counter as identifier, a
    preview of at most 503 characters, the given title or "Document" and
    the identifier, and as summary the text shown, which after a failed
    call is the error text. *)
Theorem summary_always_stored :
  forall (pk : pickle) (w : world) ob oc (ss : list Summary.t) (sc : Z)
         (fs : gmap string (file_data pk))
         (doc_title : str) (ty : doc_type) (doc_content : str),
    (100 <= length (strip doc_content))%nat ->
    exists text o,
      generate_summary pk w doc_title ty doc_content
        {| session := {| blogs := ob; blog_counter := oc;
                         summaries := Some ss; summary_counter := Some sc |};
           disk := fs |}
      = (Ok (SummaryGenerated text),
         {| session := {| blogs := ob; blog_counter := oc;
                          summaries := Some (ss ++ [o]);
                          summary_counter := Some (sc + 1) |};
            disk := save_summaries pk (ss ++ [o]) fs |})
      /\ Summary.id o = sc
      /\ Summary.summary o = text
      /\ (length (Summary.content o) <= 503)%nat
      /\ (doc_title = [] -> Summary.title o = lit "Document " ++ of_Z sc)
      /\ (doc_title <> [] -> Summary.title o = doc_title)
      /\ (forall c e,
            generate_content w
              (summary_prompt doc_content (str_lower w (doc_type_label ty)))
            = Raise c e ->
            text = lit "Error generating summary: " ++ e).
Proof.
  intros pk w ob oc ss sc fs doc_title ty doc_content Hlen.
  rewrite generate_summary_cases. cbv zeta.
  replace (negb (truthy (strip doc_content))) with false
    by (destruct (strip doc_content); [simpl in Hlen; lia | reflexivity]).
  replace (length (strip doc_content) <? 100)%nat with false
    by (symmetry; apply Nat.ltb_ge; exact Hlen).
  rewrite summarize_document_cases.
  eexists. eexists. split; [reflexivity|].
  unfold summary_obj. cbn [Summary.id Summary.summary Summary.content Summary.title].
  split; [reflexivity|]. split; [reflexivity|]. split.
  { destruct (500 <? length doc_content)%nat eqn:E.
    - rewrite length_app, length_firstn. change (length (lit "...")) with 3%nat. lia.
    - apply Nat.ltb_ge in E. lia. }
  split; [intros ->; reflexivity|].
  split; [intros H; destruct doc_title; [contradiction | reflexivity]|].
  intros c e ->. reflexivity.
Qed.

Lemma summary_always_stored_sample :
  exists text o,
    generate_summary sample_pickle (failing_world (lit "quota exceeded"))
      [] General sample_document empty_loaded
    = (Ok (SummaryGenerated text),
       {| session := {| blogs := Some []; blog_counter := Some 1;
                        summaries := Some ([] ++ [o]);
                        summary_counter := Some (1 + 1) |};
          disk := save_summaries sample_pickle ([] ++ [o]) ∅ |})
    /\ text = lit "Error generating summary: quota exceeded".
Proof.
  assert (H : (100 <= length (strip sample_document))%nat)
    by (vm_compute; lia).
  destruct (summary_always_stored sample_pickle
              (failing_world (lit "quota exceeded"))
              (Some []) (Some 1) [] 1 ∅ [] General sample_document H)
    as (text & o & E & _ & _ & _ & _ & _ & F).
  exists text, o. split; [exact E|]. exact (F OtherException _ eq_refl).
Defined.

(** X12. In a loaded session a blog submission with a username, a title
    and at least 50 characters of text is published with a rating in
    [1,5], as a record that takes the counter as identifier and the form's
    fields (the tag "General Finance" when none is given), with no likes
    and no comments; or else the rating overflows and nothing changes. *)
Theorem blog_published_or_overflow :
  forall (pk : pickle) (w : world) (bs : list Blog.t) (c : Z) os osc
         (fs : gmap string (file_data pk))
         (user_name title content tag : str),
    user_name <> [] -> title <> [] -> (50 <= length content)%nat ->
    let st := {| session := {| blogs := Some bs; blog_counter := Some c;
                               summaries := os; summary_counter := osc |};
                 disk := fs |} in
    (exists r b,
        1 <= r <= 5
        /\ publish_blog pk w user_name title content tag st
           = (Ok (BlogPublished r),
              {| session := {| blogs := Some (bs ++ [b]);
                               blog_counter := Some (c + 1);
                               summaries := os; summary_counter := osc |};
                 disk := save_blogs pk (bs ++ [b]) fs |})
        /\ b = {| Blog.id := c; Blog.user_name := user_name;
                  Blog.title := title; Blog.content := content;
                  Blog.tag := match tag with
                              | [] => lit "General Finance"
                              | _ => tag
                              end;
                  Blog.time := now w; Blog.likes := 0; Blog.comments := 0;
                  Blog.rating := r |})
    \/ (exists e,
          rate_blog w content = Raise OverflowError e
          /\ publish_blog pk w user_name title content tag st
             = (Raise OverflowError e, st)).
Proof.
  intros pk w bs c os osc fs user_name title content tag Hu Ht Hc st.
  subst st. rewrite publish_blog_cases. cbv zeta.
  assert (Hcn : content <> []) by (intros ->; simpl in Hc; lia).
  replace (negb (truthy user_name) || negb (truthy title)
           || negb (truthy content)) with false
    by (destruct user_name, title, content; try contradiction; reflexivity).
  replace (length content <? 50)%nat with false
    by (symmetry; apply Nat.ltb_ge; exact Hc).
  destruct (rate_blog w content) as [r|cl e] eqn:Er.
  - left. exists r. eexists. split; [exact (rate_blog_range _ _ _ Er)|].
    split; [reflexivity|]. unfold new_blog. destruct tag; reflexivity.
  - right. exists e.
    rewrite (rate_blog_raises_overflow_only _ _ _ _ Er). split; reflexivity.
Qed.

Lemma blog_published_or_overflow_sample :
  exists r b,
    publish_blog sample_pickle (replying_world (lit "4"))
      (lit "asha") (lit "Rates") sample_content [] empty_loaded
    = (Ok (BlogPublished r),
       {| session := {| blogs := Some ([] ++ [b]);
                        blog_counter := Some (1 + 1);
                        summaries := Some []; summary_counter := Some 1 |};
          disk := save_blogs sample_pickle ([] ++ [b]) ∅ |})
    /\ Blog.tag b = lit "General Finance".
Proof.
  assert (Hu : lit "asha" <> []) by discriminate.
  assert (Ht : lit "Rates" <> []) by discriminate.
  assert (Hc : (50 <= length sample_content)%nat) by (vm_compute; lia).
  destruct (blog_published_or_overflow sample_pickle (replying_world (lit "4"))
              [] 1 (Some []) (Some 1) ∅
              (lit "asha") (lit "Rates") sample_content [] Hu Ht Hc)
    as [(r & b & _ & E & B)|(e & R & _)].
  - exists r, b. split; [exact E | rewrite B; reflexivity].
  - vm_compute in R. discriminate R.
Defined.

(** ** Sessions and files *)

Section Sessions.

Context (pk : pickle).

Lemma initialize_loaded bs c ss sc (fs : gmap string (file_data pk)) :
  initialize pk {| session := {| blogs := Some bs; blog_counter := Some c;
                                 summaries := Some ss;
                                 summary_counter := Some sc |};
                   disk := fs |}
  = (Ok tt, {| session := {| blogs := Some bs; blog_counter := Some c;
                             summaries := Some ss;
                             summary_counter := Some sc |};
               disk := fs |}).
Proof. reflexivity. Qed.

Lemma initialize_start (fs : gmap string (file_data pk)) X Y :
  load_blogs pk fs = Ok X -> load_summaries pk fs = Ok Y ->
  initialize pk (start pk fs)
  = (Ok tt, {| session := {| blogs := Some X;
                             blog_counter := Some (Z.of_nat (length X) + 1);
                             summaries := Some Y;
                             summary_counter := Some (Z.of_nat (length Y) + 1) |};
               disk := fs |}).
Proof.
  intros HX HY. unfold start, fresh_session. run_monad.
  rewrite HX. run_monad. rewrite HY. reflexivity.
Qed.

Lemma initialize_blogs_unreadable (fs : gmap string (file_data pk)) c e :
  load_blogs pk fs = Raise c e ->
  initialize pk (start pk fs) = (Raise c e, start pk fs).
Proof.
  intros H. unfold start, fresh_session. run_monad. rewrite H. reflexivity.
Qed.

Lemma script_blogs_unreadable (fs : gmap string (file_data pk)) c e w ev :
  load_blogs pk fs = Raise c e ->
  script pk w ev (start pk fs) = (Raise c e, start pk fs).
Proof.
  intros H. rewrite script_unfold, (initialize_blogs_unreadable fs c e H).
  reflexivity.
Qed.

End Sessions.

(** X13. A session reads the files once: after an initialisation that
    succeeded, initialising again changes nothing, whatever the files have
    become in the meantime. *)
Theorem session_loaded_once :
  forall (pk : pickle) (st : app_state pk),
    fst (initialize pk st) = Ok tt ->
    forall (fs' : gmap string (file_data pk)),
      initialize pk {| session := session (snd (initialize pk st)); disk := fs' |}
      = (Ok tt, {| session := session (snd (initialize pk st)); disk := fs' |}).
Proof.
  intros pk st H fs'.
  destruct (initialize_ok pk st H) as (bs & c & ss & sc & ->).
  apply initialize_loaded.
Qed.

Lemma session_loaded_once_sample :
  initialize sample_pickle
    {| session := session (snd (initialize sample_pickle (start sample_pickle ∅)));
       disk := corrupt_files |}
  = (Ok tt,
     {| session := session (snd (initialize sample_pickle (start sample_pickle ∅)));
        disk := corrupt_files |}).
Proof.
  assert (H : fst (initialize sample_pickle (start sample_pickle ∅)) = Ok tt)
    by reflexivity.
  exact (session_loaded_once sample_pickle (start sample_pickle ∅) H corrupt_files).
Defined.

(** X14. When the blogs file cannot be unpickled, every run of a new
    session raises that exception before any handler runs: the state
    stays the one of the new session, nothing is created and nothing is
    written. *)
Theorem unreadable_blogs_block_every_run :
  forall (pk : pickle) (fs : gmap string (file_data pk)) (c : exn_class) (e : str),
    load_blogs pk fs = Raise c e ->
    forall (evs : list (world * event)),
      run pk evs (start pk fs) = start pk fs
      /\ Forall (fun r => r = Raise c e) (trace pk evs (start pk fs)).
Proof.
  intros pk fs c e H evs.
  induction evs as [|[w ev] evs [IH1 IH2]]; cbn [run trace].
  - split; [reflexivity | constructor].
  - rewrite (script_blogs_unreadable pk fs c e w ev H). cbn [fst snd].
    split; [exact IH1 | constructor; [reflexivity | exact IH2]].
Qed.

Lemma unreadable_blogs_sample :
  run sample_pickle sample_events (start sample_pickle corrupt_files)
  = start sample_pickle corrupt_files.
Proof.
  assert (H : load_blogs sample_pickle corrupt_files = Raise TypeError [])
    by reflexivity.
  exact (proj1 (unreadable_blogs_block_every_run
                  sample_pickle corrupt_files TypeError [] H sample_events)).
Defined.

(** X15. A run writes a file only when it creates a record of that kind:
    a run that reports no publication leaves the blogs file as it was, a
    run that reports no generated summary leaves the summaries file as it
    was, and a run that reports neither leaves all files as they were. *)
Theorem files_written_on_creation_only :
  forall (pk : pickle) (w : world) (ev : event) (st : app_state pk),
    let r := fst (script pk w ev st) in
    let st' := snd (script pk w ev st) in
    (is_published r = false -> disk st' !! blogs_path = disk st !! blogs_path)
    /\ (is_generated r = false ->
        disk st' !! summaries_path = disk st !! summaries_path)
    /\ (is_published r = false -> is_generated r = false -> disk st' = disk st).
Proof.
  intros pk w ev st. cbv zeta. rewrite script_unfold.
  pose proof (initialize_ok pk st) as Hok.
  pose proof (initialize_disk pk st) as Hd.
  destruct (initialize pk st) as [[[]|c e] st1]; cbn [fst snd] in *;
    [|rewrite Hd; auto].
  destruct (Hok eq_refl) as (bs & c & ss & sc & Hs).
  destruct st1 as [s1 fs1]. cbn in Hs, Hd. subst s1 fs1.
  destruct ev as [user_name title content tag|doc_title ty doc_content|].
  - rewrite publish_blog_cases. cbv zeta.
    destruct (negb (truthy user_name) || negb (truthy title)
              || negb (truthy content)); [cbn; auto|].
    destruct (length content <? 50)%nat; [cbn; auto|].
    destruct (rate_blog w content); cbn; [|auto].
    split; [discriminate|]. split; [|discriminate].
    intros _. unfold save_blogs. apply lookup_insert_ne. exact paths_differ.
  - rewrite generate_summary_cases. cbv zeta.
    destruct (negb (truthy (strip doc_content))); [cbn; auto|].
    destruct (length (strip doc_content) <? 100)%nat; [cbn; auto|].
    destruct (summarize_document w doc_content
                (str_lower w (doc_type_label ty))); cbn; [|auto].
    split; [|split; [discriminate | discriminate]].
    intros _. unfold save_summaries. apply lookup_insert_ne.
    intros E. symmetry in E. exact (paths_differ E).
  - cbn. auto.
Qed.

(** ** Sessions over the same files *)

Section Restart.

Context (pk : pickle).
Hypothesis pk_faithful : pickle_faithful pk.

Lemma initialize_invs X nb Y ns (st : app_state pk) :
  blogs_inv pk X nb st -> summaries_inv pk Y ns st ->
  initialize pk st
  = (Ok tt,
     {| session := {| blogs := Some (X ++ nb);
                      blog_counter := Some (Z.of_nat (length (X ++ nb)) + 1);
                      summaries := Some (Y ++ ns);
                      summary_counter := Some (Z.of_nat (length (Y ++ ns)) + 1) |};
        disk := disk st |}).
Proof.
  intros (Db & Sb & _) (Ds & Ss & _).
  destruct st as [[ob oc os osc] fs]. cbn in Db, Sb, Ds, Ss |- *.
  assert (Cb : Z.of_nat (length X) + Z.of_nat (length nb) + 1
               = Z.of_nat (length (X ++ nb)) + 1) by (rewrite length_app; lia).
  assert (Cs : Z.of_nat (length Y) + Z.of_nat (length ns) + 1
               = Z.of_nat (length (Y ++ ns)) + 1) by (rewrite length_app; lia).
  rewrite Cb in Sb. rewrite Cs in Ss.
  destruct Sb as [(-> & -> & _)|(-> & ->)], Ss as [(-> & -> & _)|(-> & ->)];
    run_monad; rewrite ?Db; run_monad; rewrite ?Ds; reflexivity.
Qed.

Lemma script_loads X nb Y ns (st : app_state pk) (w : world) (ev : event) :
  blogs_inv pk X nb st -> summaries_inv pk Y ns st ->
  blogs (session (snd (script pk w ev st))) <> None
  /\ summaries (session (snd (script pk w ev st))) <> None.
Proof.
  intros Hb Hs. rewrite script_unfold, (initialize_invs X nb Y ns st Hb Hs).
  destruct ev as [user_name title content tag|doc_title ty doc_content|].
  - rewrite publish_blog_cases. cbv zeta.
    destruct (negb (truthy user_name) || negb (truthy title)
              || negb (truthy content)); [cbn; split; discriminate|].
    destruct (length content <? 50)%nat; [cbn; split; discriminate|].
    destruct (rate_blog w content); cbn; split; discriminate.
  - rewrite generate_summary_cases. cbv zeta.
    destruct (negb (truthy (strip doc_content))); [cbn; split; discriminate|].
    destruct (length (strip doc_content) <? 100)%nat;
      [cbn; split; discriminate|].
    destruct (summarize_document w doc_content
                (str_lower w (doc_type_label ty))); cbn; split; discriminate.
  - cbn. split; discriminate.
Qed.

Lemma run_loads (evs : list (world * event)) :
  forall X nb Y ns (st : app_state pk),
    blogs_inv pk X nb st -> summaries_inv pk Y ns st -> evs <> [] ->
    blogs (session (run pk evs st)) <> None
    /\ summaries (session (run pk evs st)) <> None.
Proof using pk_faithful.
  induction evs as [|[w ev] evs IH]; intros X nb Y ns st Hb Hs Hne;
    [contradiction|].
  cbn [run]. destruct evs as [|ev' evs].
  - cbn [run]. exact (script_loads X nb Y ns st w ev Hb Hs).
  - assert (Hb' : exists nb', blogs_inv pk X nb' (snd (script pk w ev st))).
    { destruct (script_blogs_step pk pk_faithful X nb st w ev Hb)
        as [(_ & H)|(_ & b & H)]; eauto. }
    assert (Hs' : exists ns', summaries_inv pk Y ns' (snd (script pk w ev st))).
    { destruct (script_summaries_step pk pk_faithful Y ns st w ev Hs)
        as [(_ & H)|(_ & o & H)]; eauto. }
    destruct Hb' as (nb' & Hb'), Hs' as (ns' & Hs').
    apply (IH X nb' Y ns' _ Hb' Hs'). discriminate.
Qed.

Lemma script_publish_loaded (w : world) (ev : event) bs c ss sc
    (fs : gmap string (file_data pk)) (r : Z) :
  let st := {| session := {| blogs := Some bs; blog_counter := Some c;
                             summaries := Some ss; summary_counter := Some sc |};
               disk := fs |} in
  fst (script pk w ev st) = Ok (BlogPublished r) ->
  exists b,
    Blog.id b = c
    /\ snd (script pk w ev st)
       = {| session := {| blogs := Some (bs ++ [b]); blog_counter := Some (c + 1);
                          summaries := Some ss; summary_counter := Some sc |};
            disk := save_blogs pk (bs ++ [b]) fs |}.
Proof.
  intros st. subst st. rewrite script_unfold, initialize_loaded.
  destruct ev as [user_name title content tag|doc_title ty doc_content|].
  - rewrite publish_blog_cases. cbv zeta.
    destruct (negb (truthy user_name) || negb (truthy title)
              || negb (truthy content)); [discriminate|].
    destruct (length content <? 50)%nat; [discriminate|].
    destruct (rate_blog w content); cbn [fst snd]; [|discriminate].
    intros _. eexists. split; [|reflexivity]. reflexivity.
  - rewrite generate_summary_cases. cbv zeta.
    destruct (negb (truthy (strip doc_content))); [discriminate|].
    destruct (length (strip doc_content) <? 100)%nat; [discriminate|].
    destruct (summarize_document w doc_content
                (str_lower w (doc_type_label ty))); discriminate.
  - discriminate.
Qed.

End Restart.

(** X16. A new session over the files an earlier session left resumes
    where that session ended: its initialisation succeeds, and after it
    the lists and the counters are those the earlier session had at its
    end. *)
Theorem restart_resumes_session :
  forall (pk : pickle),
    pickle_faithful pk ->
    forall (fs : gmap string (file_data pk)) (X : list Blog.t)
           (Y : list Summary.t) (evs : list (world * event)),
      load_blogs pk fs = Ok X ->
      load_summaries pk fs = Ok Y ->
      evs <> [] ->
      let st := run pk evs (start pk fs) in
      initialize pk (start pk (disk st)) = (Ok tt, st).
Proof.
  intros pk Hpk fs X Y evs HX HY Hne st.
  pose proof (start_blogs_inv pk fs X HX) as Ib.
  pose proof (start_summaries_inv pk fs Y HY) as Is.
  destruct (run_loads pk Hpk evs X [] Y [] _ Ib Is Hne) as (Lb & Ls).
  destruct (run_blogs_inv pk Hpk evs X [] _ Ib) as (nb & (Db & Sb & _) & _).
  destruct (run_summaries_inv pk Hpk evs Y [] _ Is) as (ns & (Ds & Ss & _) & _).
  cbn [app] in *. fold st in Lb, Ls, Db, Sb, Ds, Ss.
  rewrite (initialize_start pk (disk st) _ _ Db Ds).
  destruct st as [[ob oc os osc] fs']. cbn in *.
  destruct Sb as [(-> & _)|(-> & ->)]; [contradiction|].
  destruct Ss as [(-> & _)|(-> & ->)]; [contradiction|].
  rewrite !length_app, !Nat2Z.inj_add. reflexivity.
Qed.

Lemma restart_resumes_session_sample :
  initialize sample_pickle
    (start sample_pickle
       (disk (run sample_pickle sample_events (start sample_pickle ∅))))
  = (Ok tt, run sample_pickle sample_events (start sample_pickle ∅)).
Proof.
  assert (HX : load_blogs sample_pickle ∅ = Ok []) by reflexivity.
  assert (HY : load_summaries sample_pickle ∅ = Ok []) by reflexivity.
  assert (Hne : sample_events <> []) by discriminate.
  exact (restart_resumes_session sample_pickle
           (conj (fun bs => eq_refl) (fun ss => eq_refl))
           ∅ [] [] sample_events HX HY Hne).
Defined.

(** X17. Two sessions that loaded the same files give their first blog
    the same identifier, and the file keeps the blog of the session that
    saved last only: the other session's blog is no longer in it. *)
Theorem concurrent_sessions_overwrite :
  forall (pk : pickle),
    pickle_faithful pk ->
    forall (fs : gmap string (file_data pk)) (X : list Blog.t)
           (Y : list Summary.t) (w0 wA wB : world) (evA evB : event)
           (rA rB : Z),
      load_blogs pk fs = Ok X ->
      load_summaries pk fs = Ok Y ->
      let s0 := snd (script pk w0 Browse (start pk fs)) in
      let outA := script pk wA evA s0 in
      let outB := script pk wB evB
                    {| session := session s0; disk := disk (snd outA) |} in
      fst outA = Ok (BlogPublished rA) ->
      fst outB = Ok (BlogPublished rB) ->
      exists bA bB,
        blogs (session (snd outA)) = Some (X ++ [bA])
        /\ blogs (session (snd outB)) = Some (X ++ [bB])
        /\ Blog.id bA = Z.of_nat (length X) + 1
        /\ Blog.id bB = Z.of_nat (length X) + 1
        /\ load_blogs pk (disk (snd outA)) = Ok (X ++ [bA])
        /\ load_blogs pk (disk (snd outB)) = Ok (X ++ [bB]).
Proof.
  intros pk Hpk fs X Y w0 wA wB evA evB rA rB HX HY s0 outA outB HA HB.
  assert (E0 : s0 = {| session := {| blogs := Some X;
                                     blog_counter := Some (Z.of_nat (length X) + 1);
                                     summaries := Some Y;
                                     summary_counter := Some (Z.of_nat (length Y) + 1) |};
                       disk := fs |}).
  { subst s0. rewrite script_unfold, (initialize_start pk fs X Y HX HY). reflexivity. }
  subst outA outB. rewrite E0 in *. cbn [session] in *.
  destruct (script_publish_loaded pk wA evA _ _ _ _ _ rA HA) as (bA & IA & EA).
  rewrite EA in *. cbn [disk session blogs] in *.
  destruct (script_publish_loaded pk wB evB _ _ _ _ _ rB HB) as (bB & IB & EB).
  rewrite EB. cbn [disk session blogs].
  exists bA, bB.
  repeat split; auto using load_save_blogs.
Qed.

Lemma concurrent_sessions_overwrite_sample :
  exists bA bB,
    Blog.id bA = Blog.id bB
    /\ load_blogs sample_pickle
         (disk (snd (script sample_pickle (replying_world (lit "2"))
                       (PublishBlog (lit "ravi") (lit "Bonds") sample_content [])
                       {| session := session empty_loaded;
                          disk := disk (snd (script sample_pickle
                                               (replying_world (lit "4"))
                                               (PublishBlog (lit "asha") (lit "Rates")
                                                            sample_content [])
                                               empty_loaded)) |})))
       = Ok ([] ++ [bB])
    /\ Blog.user_name bA = lit "asha" /\ Blog.user_name bB = lit "ravi".
Proof.
  assert (HX : load_blogs sample_pickle ∅ = Ok []) by reflexivity.
  assert (HY : load_summaries sample_pickle ∅ = Ok []) by reflexivity.
  destruct (concurrent_sessions_overwrite sample_pickle
              (conj (fun bs => eq_refl) (fun ss => eq_refl))
              ∅ [] [] (replying_world []) (replying_world (lit "4"))
              (replying_world (lit "2"))
              (PublishBlog (lit "asha") (lit "Rates") sample_content [])
              (PublishBlog (lit "ravi") (lit "Bonds") sample_content [])
              4 2 HX HY)
    as (bA & bB & SA & SB & IA & IB & _ & LB); [reflexivity | reflexivity |].
  exists bA, bB. split; [congruence|]. split; [exact LB|].
  vm_compute in SA, SB. injection SA as <-. injection SB as <-.
  split; reflexivity.
Defined.

(** ** Glossary: what a search finds and shows *)

Lemma glossary_matches_In (w : world) (q term : str) :
  In term (List.filter (fun term => contains (str_lower w term) (str_lower w q))
                       (List.map fst FINANCE_TERMS))
  <-> In term (List.map fst FINANCE_TERMS)
      /\ exists pre post, str_lower w term = pre ++ str_lower w q ++ post.
Proof. rewrite filter_In, contains_spec. tauto. Qed.

(** X18. When the search runs, a query that, lower-cased and trimmed, is
    part of the lower-cased name of some term is never answered with
    "term not found". *)
Theorem glossary_finds_contained_terms :
  forall (w : world) (search_term : str) (search_button : bool) (term : str),
    truthy search_term || search_button = true ->
    In term (List.map fst FINANCE_TERMS) ->
    (exists pre post,
        str_lower w term = pre ++ str_lower w (strip search_term) ++ post) ->
    exists view,
      glossary_search w search_term search_button = Some view
      /\ view <> TermNotFound.
Proof.
  intros w search_term search_button term Hrun Hterm Hsub.
  rewrite (glossary_search_unfold w search_term search_button Hrun).
  eexists. split; [reflexivity|].
  destruct (lookup (strip search_term) FINANCE_TERMS); [discriminate|].
  cbv zeta.
  pose proof (proj2 (glossary_matches_In w (strip search_term) term)
                (conj Hterm Hsub)) as Hin.
  destruct (List.filter _ (List.map fst FINANCE_TERMS));
    [destruct Hin | discriminate].
Qed.

Lemma glossary_finds_contained_terms_sample :
  exists view,
    glossary_search (replying_world []) (lit "roi") false = Some view
    /\ view <> TermNotFound.
Proof.
  apply (glossary_finds_contained_terms (replying_world []) (lit "roi") false
           (lit "ROI") eq_refl).
  - vm_compute. tauto.
  - exists [], []. reflexivity.
Defined.

Lemma entries_own_definition (entry : str * str) :
  In entry FINANCE_TERMS -> term_definition (fst entry) = snd entry.
Proof.
  assert (H : forallb (fun kv => match lookup (fst kv) FINANCE_TERMS with
                                 | Some d => PyStr.eqb d (snd kv)
                                 | None => false
                                 end) FINANCE_TERMS = true)
    by (vm_compute; reflexivity).
  rewrite forallb_forall in H. intros Hin. specialize (H entry Hin).
  unfold term_definition.
  destruct (lookup (fst entry) FINANCE_TERMS); [|discriminate].
  apply eqb_eq. exact H.
Qed.

Lemma filter_map_comm {A B} (f : B -> bool) (g : A -> B) (l : list A) :
  List.filter f (List.map g l) = List.map g (List.filter (fun x => f (g x)) l).
Proof.
  induction l as [|x l IH]; cbn [List.map List.filter]; [reflexivity|].
  destruct (f (g x)); cbn [List.map]; congruence.
Qed.

Lemma firstn_map_comm {A B} (g : A -> B) (n : nat) (l : list A) :
  firstn n (List.map g l) = List.map g (firstn n l).
Proof.
  revert l. induction n as [|n IH]; intros [|x l]; cbn; try reflexivity.
  f_equal. apply IH.
Qed.

Lemma firstn_sub {A} (n : nat) (l : list A) (x : A) :
  In x (firstn n l) -> In x l.
Proof.
  revert l. induction n as [|n IH]; intros [|y l]; cbn; try tauto.
  intros [H|H]; [left; exact H | right; exact (IH l H)].
Qed.

Lemma shown_entries (l : list (str * str)) :
  (forall entry, In entry l -> In entry FINANCE_TERMS) ->
  List.map (fun m => (m, term_definition m)) (List.map fst l) = l.
Proof.
  induction l as [|[k d] l IH]; intros H; cbn [List.map]; [reflexivity|].
  rewrite IH by (intros entry He; apply H; right; exact He).
  rewrite (entries_own_definition (k, d)) by (apply H; left; reflexivity).
  reflexivity.
Qed.

(** X19. The partial matches shown are entries of the dictionary with
    their own definitions: the first five, in the order of the
    dictionary, of the entries whose name matches; the number found
    counts all of them, and the notice of further matches appears exactly
    when there are more than five, with their number. *)
Theorem glossary_shows_first_five_entries :
  forall (w : world) (search_term : str) (search_button : bool)
         (found : nat) (shown : list (str * str)) (more : option nat),
    glossary_search w search_term search_button
    = Some (PartialMatches found shown more) ->
    let matching := List.filter (entry_matches w search_term) FINANCE_TERMS in
    shown = firstn 5 matching
    /\ found = length matching
    /\ (1 <= found)%nat
    /\ length shown = Nat.min found 5
    /\ more = (if (5 <? found)%nat then Some (found - 5)%nat else None).
Proof.
  intros w search_term search_button found shown more H matching.
  unfold glossary_search in H.
  destruct (truthy search_term || search_button); [|discriminate].
  destruct (lookup (strip search_term) FINANCE_TERMS); [discriminate|].
  cbv zeta in H.
  rewrite (filter_map_comm
             (fun term => contains (str_lower w term)
                                   (str_lower w (strip search_term)))
             fst FINANCE_TERMS) in H.
  fold (entry_matches w search_term) in H.
  change (fun x => entry_matches w search_term x)
    with (entry_matches w search_term) in H.
  subst matching.
  set (matching := List.filter (entry_matches w search_term) FINANCE_TERMS) in *.
  destruct (List.map fst matching) as [|k ks] eqn:Ek; [discriminate|].
  cbv match in H. rewrite <- Ek in H. injection H as <- <- <-.
  rewrite firstn_map_comm, length_map.
  split.
  { apply shown_entries. intros entry He.
    apply firstn_sub in He. unfold matching in He.
    apply filter_In in He. tauto. }
  split; [reflexivity|]. split.
  { apply (f_equal (@length str)) in Ek. rewrite length_map in Ek.
    cbn [length] in Ek. lia. }
  split; [|reflexivity].
  rewrite !length_map, length_firstn. lia.
Qed.

Lemma glossary_shows_first_five_entries_sample :
  firstn 5 (List.filter (entry_matches (replying_world []) (lit "market"))
                        FINANCE_TERMS)
  = [(lit "Market Cap", term_definition (lit "Market Cap"));
     (lit "Bull Market", term_definition (lit "Bull Market"));
     (lit "Bear Market", term_definition (lit "Bear Market"))].
Proof.
  pose proof (glossary_shows_first_five_entries (replying_world [])
                (lit "market") true 3
                [(lit "Market Cap", term_definition (lit "Market Cap"));
                 (lit "Bull Market", term_definition (lit "Bull Market"));
                 (lit "Bear Market", term_definition (lit "Bear Market"))]
                None eq_refl) as (H & _).
  symmetry. exact H.
Defined.

(** ** Replies that are not a number *)

Lemma strip_by_keeps (f : char -> bool) (s : str) (c : char) :
  In c s -> f c = false -> In c (strip_by f s).
Proof.
  intros Hin Hf.
  destruct (strip_by_spec f s) as (pre & post & Hs & Hpre & Hpost & _).
  rewrite Hs in Hin. rewrite forallb_forall in Hpre, Hpost.
  apply in_app_or in Hin as [H|H]; [specialize (Hpre c H); congruence|].
  apply in_app_or in H as [H|H]; [exact H | specialize (Hpost c H); congruence].
Qed.

Lemma digits_value_rejects (c : char) (s : str) :
  In c s -> decimal c = None -> c <> underscore ->
  forall acc n after_digit, digits_value acc n after_digit s = None.
Proof.
  intros Hin Hd Hu. induction s as [|x s IH]; [destruct Hin|].
  intros acc n after_digit. cbn [digits_value].
  destruct (x =? underscore)%N eqn:Ex.
  - apply N.eqb_eq in Ex. destruct after_digit; [|reflexivity].
    apply IH. destruct Hin as [->|H]; [contradiction | exact H].
  - destruct (decimal x) as [d|] eqn:Edx; [|reflexivity].
    apply IH. destruct Hin as [->|H]; [congruence | exact H].
Qed.

(** X20. A reply that holds a character that can be no part of an integer
    literal (a letter, a point, a slash, ...) is not read as a rating:
    the client returns [None] and the final rating is the heuristic
    one. *)
Theorem model_reply_with_text_ignored :
  forall (w : world) (content text : str) (c : char),
    generate_content w (rating_prompt content) = Ok text ->
    In c text -> not_numeric c = true ->
    rate_with_gemini w content = Ok None
    /\ rate_blog w content = Ok (rate_with_textblob w content).
Proof.
  intros w content text c Hg Hin Hc.
  unfold not_numeric in Hc.
  destruct (decimal c) eqn:Hd; [discriminate|].
  repeat (apply andb_true_iff in Hc as [Hc ?]).
  repeat match goal with
         | H : negb _ = true |- _ => apply negb_true_iff in H
         end.
  repeat match goal with
         | H : (_ =? _)%N = false |- _ => apply N.eqb_neq in H
         end.
  assert (Hn : rate_with_gemini w content = Ok None).
  { rewrite rate_with_gemini_cases, Hg.
    assert (Hint : exists cl e, PyStr.int (strip text) = Raise cl e).
    { unfold PyStr.int.
      pose proof (strip_by_keeps int_space _ c
                    (strip_by_keeps isspace text c Hin ltac:(assumption))
                    ltac:(assumption)) as Hs. fold (strip text) in Hs.
      set (s1 := strip_by int_space (strip text)) in *.
      assert (Hbody : forall sign body,
                 (sign, body) = match s1 with
                                | x :: r => if (x =? plus_sign)%N then (1, r)
                                            else if (x =? hyphen)%N then (-1, r)
                                            else (1, s1)
                                | [] => (1, s1)
                                end -> In c body).
      { intros sign body E. destruct s1 as [|x r]; [destruct Hs|].
        destruct (x =? plus_sign)%N eqn:Ep.
        - injection E as -> ->. apply N.eqb_eq in Ep.
          destruct Hs as [Hx|Hs]; [congruence | exact Hs].
        - destruct (x =? hyphen)%N eqn:Eh; injection E as -> ->; [|exact Hs].
          apply N.eqb_eq in Eh.
          destruct Hs as [Hx|Hs]; [congruence | exact Hs]. }
      destruct (match s1 with
                | x :: r => if (x =? plus_sign)%N then (1, r)
                            else if (x =? hyphen)%N then (-1, r)
                            else (1, s1)
                | [] => (1, s1)
                end) as [sign body] eqn:E.
      rewrite (digits_value_rejects c body (Hbody sign body eq_refl) Hd)
        by assumption.
      eauto. }
    destruct Hint as (cl & e & ->). reflexivity. }
  split; [exact Hn|]. unfold rate_blog. rewrite Hn. reflexivity.
Qed.

Lemma model_reply_with_text_ignored_sample :
  rate_blog (replying_world (lit "Rating: 4")) sample_content = Ok 3.
Proof.
  apply (model_reply_with_text_ignored (replying_world (lit "Rating: 4"))
           sample_content (lit "Rating: 4") 82%N eq_refl).
  - left. reflexivity.
  - reflexivity.
Defined.
